(** * CounselFlow backend: the AI-assisted analysis gateway

    A shallow embedding of [backend/app/main.py]: the four methods of
    [AIService] ([analyze_contract], [generate_contract_draft],
    [assess_legal_risk], [legal_research]) and the two HTTP routes that
    post-process their results ([analyze_contract], [assess_risk]).

    Python values decoded from JSON are an inductive type whose
    dictionaries are finite maps with string keys.  The methods are
    written in a small exception-and-trace monad: a computation either
    returns or raises, and it extends a chronological trace of the
    interactions the code has with the outside (the model call, the
    logger, the JSON decoder).  Everything the code takes from a library
    (the completion service, [json.loads], [json.dumps], the clock, the
    response-model validation) is a field of the [Platform] class.

    Boundaries of the model.  Raised objects are instances of
    [Exception], the class every handler of the code names; task
    cancellation and interpreter exits are outside it.  A dictionary is a
    finite map, so two dictionaries with the same bindings are equal as
    in Python, and the order in which [json.dumps] prints the keys is
    left to the [json_dumps] field.  The completion's [content] is a
    string.  Arguments have the types of the code's annotations, so
    building a prompt cannot raise. *)

From Stdlib Require Import ZArith String Ascii Floats.
From stdpp Require Import base option list gmap strings.

Set Warnings "-inexact-float,-register-all".
Open Scope string_scope.
Open Scope list_scope.

(** ** Python values *)

(** What [json.loads] can return, and what a [Dict[str, Any]] holds. *)
Inductive value : Type :=
| VNone
| VBool (b : bool)
| VInt (n : Z)
| VFloat (f : float)
| VStr (s : string)
| VList (l : list value)
| VDict (m : gmap string value).

(** [type(v).__name__] *)
Definition type_name (v : value) : string :=
  match v with
  | VNone => "NoneType"
  | VBool _ => "bool"
  | VInt _ => "int"
  | VFloat _ => "float"
  | VStr _ => "str"
  | VList _ => "list"
  | VDict _ => "dict"
  end.

(** A dict literal [{k1: v1, ...}]: later bindings of a key win. *)
Definition dict_of (kvs : list (string * value)) : gmap string value :=
  fold_left (fun m kv => <[kv.1 := kv.2]> m) kvs ∅.

(** ** Exceptions *)

(** An instance of a subclass of [Exception]: its class name and the text
    [str(e)] gives.  Every handler of the embedded code is
    [except Exception]. *)
Record exn : Type := Exception { exc_class : string; exc_str : string }.

(** [str(e)] *)
Definition str (e : exn) : string := exc_str e.

(** [HTTPException(status_code=..., detail=...)], raised by the routes. *)
Record HTTPException : Type :=
  mkHTTPException { status_code : Z; detail : string }.

(** ** The completion service's request and response *)

Record chat_message : Type := mkMessage { role : string; content : string }.

(** The keyword arguments of [openai.ChatCompletion.acreate]. *)
Record chat_request : Type := mkRequest {
  model : string;
  messages : list chat_message;
  temperature : float
}.

Record chat_choice : Type := mkChoice { message : chat_message }.

Record chat_response : Type := mkResponse { choices : list chat_choice }.

(** ** Interactions with the outside, in the order they happen *)

Inductive event : Type :=
| EvAcreate (req : chat_request)      (* openai.ChatCompletion.acreate(...) *)
| EvJsonLoads (text : string)         (* json.loads(text) *)
| EvLoggerError (msg : string).       (* logger.error(msg) *)

Definition world : Type := list event.

(** ** Settings *)

Record Settings : Type := mkSettings {
  OPENAI_API_KEY : string;
  OPENAI_MODEL : string
}.

Definition default_settings : Settings :=
  {| OPENAI_API_KEY := EmptyString; OPENAI_MODEL := "gpt-4" |}.

(** ** Response model of the analyze-contract route *)

Record ContractAnalysisRequest : Type := mkContractAnalysisRequest {
  contract_text : string;
  contract_type : option string
}.

Record ContractAnalysisResponse : Type := mkContractAnalysisResponse {
  risk_score : Z;
  key_terms : list string;
  potential_issues : list string;
  recommendations : list string;
  missing_clauses : list string
}.

(** ** What the code takes from libraries and from its environment *)

Class Platform : Type := {
  (** the [settings] object *)
  settings : Settings;
  (** the remote completion service: it answers a request with a response
      or raises; the answer may depend on everything that happened
      before *)
  provider : world -> chat_request -> exn + chat_response;
  (** [json.loads]: the decoded value, or the error it raises *)
  json_loads : string -> exn + value;
  (** [json.dumps(v, indent=n)] *)
  json_dumps : nat -> value -> string;
  (** [datetime.utcnow().isoformat()] *)
  utcnow_isoformat : world -> string;
  (** validation of a value against an [int] field of a response model *)
  validate_int : value -> option Z;
  (** validation of a value against a [List[str]] field *)
  validate_list_str : value -> option (list string);
  (** the error a response model raises for the fields that failed *)
  validation_error : string -> list (string * value) -> exn
}.

(** ** The monad: raise or return, and extend the trace *)

Definition M (E A : Type) : Type := world -> (E + A) * world.

Definition ret {E A} (a : A) : M E A := fun w => (inr a, w).

Definition raise {E A} (e : E) : M E A := fun w => (inl e, w).

Definition bind {E A B} (c : M E A) (k : A -> M E B) : M E B :=
  fun w =>
    match c w with
    | (inl e, w') => (inl e, w')
    | (inr a, w') => k a w'
    end.

(** [try: body  except Exception as e: handler(e)] *)
Definition try_except {E E' A} (body : M E A) (handler : E -> M E' A) : M E' A :=
  fun w =>
    match body w with
    | (inl e, w') => handler e w'
    | (inr a, w') => (inr a, w')
    end.

(** A pure step that may raise. *)
Definition lift {E A} (r : E + A) : M E A := fun w => (r, w).

Definition emit {E} (ev : event) : M E unit := fun w => (inr tt, w ++ [ev]).

Declare Scope py_scope.
Delimit Scope py_scope with py.
Notation "x <- c ;; k" := (bind c (fun x => k))
  (at level 100, c at next level, right associativity) : py_scope.
Notation "c ;;; k" := (bind c (fun _ => k))
  (at level 100, right associativity) : py_scope.
Open Scope py_scope.

(** [logger.error(msg)] *)
Definition logger_error {E} (msg : string) : M E unit := emit (EvLoggerError msg).

(** [l[0]] *)
Definition index0 {A} (l : list A) : M exn A :=
  match l with
  | x :: _ => ret x
  | [] => raise (Exception "IndexError" "list index out of range")
  end.

(** [await openai.ChatCompletion.acreate(...)] *)
Definition acreate `{env : Platform} (req : chat_request) : M exn chat_response :=
  fun w => (provider w req, w ++ [EvAcreate req]).

(** [json.loads(text)] *)
Definition loads `{env : Platform} (text : string) : M exn value :=
  fun w => (json_loads text, w ++ [EvJsonLoads text]).

(** ** Strings *)

Definition dq : string := String "034"%char EmptyString.
Definition nl : string := String "010"%char EmptyString.

(** A double-quoted word of a template. *)
Definition q (s : string) : string := dq +:+ s +:+ dq.

(** [sep.join(l)] *)
Definition join (sep : string) (l : list string) : string := String.concat sep l.

(** The lines of a triple-quoted literal. *)
Definition unlines (l : list string) : string := String.concat nl l.

(** ** A decoder for closed examples

    [json.loads] belongs to Python's library; the embedding is parametric
    in it.  To run the embedding on concrete replies we instantiate it
    with a decoder for the fragment of JSON whose strings have no escape
    and whose numbers are integers.  On a text of the fragment it returns
    the value [json.loads] returns; on every other text it raises a
    [JSONDecodeError], with a fixed phrase for message where [json.loads]
    also reports the position. *)
Module JsonRef.

Definition is_ws (c : ascii) : bool :=
  (c =? " ")%char || (c =? "010")%char || (c =? "013")%char || (c =? "009")%char.

Fixpoint skip_ws (s : string) : string :=
  match s with
  | String c r => if is_ws c then skip_ws r else s
  | EmptyString => s
  end.

(** The characters up to the closing quote, and what follows it. *)
Fixpoint scan_string (s : string) : option (string * string) :=
  match s with
  | EmptyString => None
  | String c r =>
      if (c =? "034")%char then Some (EmptyString, r)
      else if (c =? "\")%char then None
      else if (nat_of_ascii c <? 32)%nat then None
      else match scan_string r with
           | Some (body, rest) => Some (String c body, rest)
           | None => None
           end
  end.

Definition digit_of (c : ascii) : option Z :=
  let n := nat_of_ascii c in
  if ((48 <=? n) && (n <=? 57))%nat then Some (Z.of_nat n - 48)%Z else None.

Fixpoint scan_digits (s : string) (acc : Z) : Z * string :=
  match s with
  | String c r =>
      match digit_of c with
      | Some d => scan_digits r (10 * acc + d)%Z
      | None => (acc, s)
      end
  | EmptyString => (acc, s)
  end.

(** A fraction or an exponent follows: outside the fragment. *)
Definition starts_frac_or_exp (s : string) : bool :=
  match s with
  | String c _ => (c =? ".")%char || (c =? "e")%char || (c =? "E")%char
  | EmptyString => false
  end.

(** [int = "0" | digit1-9 digit*] *)
Definition scan_nat (s : string) : option (Z * string) :=
  match s with
  | String c r =>
      match digit_of c with
      | Some d =>
          let '(n, rest) := if (d =? 0)%Z then (0%Z, r) else scan_digits r d in
          if starts_frac_or_exp rest then None else Some (n, rest)
      | None => None
      end
  | EmptyString => None
  end.

Definition strip_prefix (p s : string) : option string :=
  if String.prefix p s
  then Some (String.substring (String.length p) (String.length s - String.length p) s)
  else None.

Definition parse_scalar (s : string) : option (value * string) :=
  match s with
  | String c r =>
      if (c =? "034")%char then
        match scan_string r with
        | Some (body, rest) => Some (VStr body, rest)
        | None => None
        end
      else if (c =? "-")%char then
        match scan_nat r with
        | Some (n, rest) => Some (VInt (- n), rest)
        | None => None
        end
      else
        match strip_prefix "true" s, strip_prefix "false" s, strip_prefix "null" s with
        | Some rest, _, _ => Some (VBool true, rest)
        | _, Some rest, _ => Some (VBool false, rest)
        | _, _, Some rest => Some (VNone, rest)
        | _, _, _ =>
            match scan_nat s with
            | Some (n, rest) => Some (VInt n, rest)
            | None => None
            end
        end
  | EmptyString => None
  end.

Fixpoint parse_value (fuel : nat) (s : string) : option (value * string) :=
  match fuel with
  | O => None
  | S fuel =>
      match skip_ws s with
      | String c r =>
          if (c =? "{")%char then
            match skip_ws r with
            | String c' r' =>
                if (c' =? "}")%char then Some (VDict ∅, r')
                else parse_members fuel (skip_ws r) ∅
            | EmptyString => None
            end
          else if (c =? "[")%char then
            match skip_ws r with
            | String c' r' =>
                if (c' =? "]")%char then Some (VList [], r')
                else parse_elements fuel r []
            | EmptyString => None
            end
          else parse_scalar (String c r)
      | EmptyString => None
      end
  end
with parse_elements (fuel : nat) (s : string) (acc : list value)
  : option (value * string) :=
  match fuel with
  | O => None
  | S fuel =>
      match parse_value fuel s with
      | Some (v, r) =>
          match skip_ws r with
          | String c r' =>
              if (c =? ",")%char then parse_elements fuel r' (acc ++ [v])
              else if (c =? "]")%char then Some (VList (acc ++ [v]), r')
              else None
          | EmptyString => None
          end
      | None => None
      end
  end
with parse_members (fuel : nat) (s : string) (acc : gmap string value)
  : option (value * string) :=
  match fuel with
  | O => None
  | S fuel =>
      match s with
      | String c r =>
          if (c =? "034")%char then
            match scan_string r with
            | Some (k, r1) =>
                match skip_ws r1 with
                | String c1 r2 =>
                    if (c1 =? ":")%char then
                      match parse_value fuel r2 with
                      | Some (v, r3) =>
                          match skip_ws r3 with
                          | String c3 r4 =>
                              if (c3 =? ",")%char
                              then parse_members fuel (skip_ws r4) (<[k := v]> acc)
                              else if (c3 =? "}")%char
                              then Some (VDict (<[k := v]> acc), r4)
                              else None
                          | EmptyString => None
                          end
                      | None => None
                      end
                    else None
                | EmptyString => None
                end
            | None => None
            end
          else None
      | EmptyString => None
      end
  end.

Definition JSONDecodeError (msg : string) : exn := Exception "JSONDecodeError" msg.

Definition json_loads (text : string) : exn + value :=
  match parse_value (2 * String.length text + 2) text with
  | Some (v, rest) =>
      match skip_ws rest with
      | EmptyString => inr v
      | String _ _ => inl (JSONDecodeError "Extra data")
      end
  | None => inl (JSONDecodeError "Expecting value")
  end.

End JsonRef.

(** ** The AI service *)

Module AIService.
Section Methods.
Context `{env : Platform}.

(** *** Prompts: the f-string of each method *)

Definition analyze_contract_prompt (contract_text : string) : string :=
  unlines
    [ EmptyString
    ; "            Analyze the following contract for potential risks and key terms:"
    ; "            "
    ; "            Contract Text:"
    ; "            " +:+ contract_text
    ; "            "
    ; "            Please provide:"
    ; "            1. Risk Assessment (score 1-10)"
    ; "            2. Key Terms Identified"
    ; "            3. Potential Issues"
    ; "            4. Recommendations"
    ; "            5. Missing Standard Clauses"
    ; "            "
    ; "            Format response as JSON with the following structure:"
    ; "            {"
    ; "                " +:+ q "risk_score" +:+ ": <number>,"
    ; "                " +:+ q "key_terms" +:+ ": [" +:+ q "term1" +:+ ", " +:+ q "term2" +:+ "],"
    ; "                " +:+ q "potential_issues" +:+ ": [" +:+ q "issue1" +:+ ", " +:+ q "issue2" +:+ "],"
    ; "                " +:+ q "recommendations" +:+ ": [" +:+ q "rec1" +:+ ", " +:+ q "rec2" +:+ "],"
    ; "                " +:+ q "missing_clauses" +:+ ": [" +:+ q "clause1" +:+ ", " +:+ q "clause2" +:+ "]"
    ; "            }"
    ; "            "
    ].

Definition generate_contract_draft_prompt (contract_type : string) (parties : list string) (key_terms : gmap string value) : string :=
  unlines
    [ EmptyString
    ; "            Generate a professional " +:+ contract_type +:+ " contract draft with the following details:"
    ; "            "
    ; "            Parties: " +:+ join ", " parties
    ; "            Key Terms: " +:+ json_dumps 2 (VDict key_terms)
    ; "            "
    ; "            Include standard clauses for:"
    ; "            - Definitions"
    ; "            - Scope of Work/Services"
    ; "            - Payment Terms"
    ; "            - Termination"
    ; "            - Confidentiality"
    ; "            - Governing Law"
    ; "            - Dispute Resolution"
    ; "            "
    ; "            Format as a professional legal document."
    ; "            "
    ].

Definition assess_legal_risk_prompt (description : string) (context : gmap string value) : string :=
  unlines
    [ EmptyString
    ; "            Assess the legal risk for the following situation:"
    ; "            "
    ; "            Description: " +:+ description
    ; "            Context: " +:+ json_dumps 2 (VDict context)
    ; "            "
    ; "            Provide:"
    ; "            1. Risk Level (Low, Medium, High, Critical)"
    ; "            2. Risk Score (1-10)"
    ; "            3. Risk Factors"
    ; "            4. Mitigation Strategies"
    ; "            5. Recommended Actions"
    ; "            "
    ; "            Format as JSON:"
    ; "            {"
    ; "                " +:+ q "risk_level" +:+ ": " +:+ q "<level>" +:+ ","
    ; "                " +:+ q "risk_score" +:+ ": <number>,"
    ; "                " +:+ q "risk_factors" +:+ ": [" +:+ q "factor1" +:+ ", " +:+ q "factor2" +:+ "],"
    ; "                " +:+ q "mitigation_strategies" +:+ ": [" +:+ q "strategy1" +:+ ", " +:+ q "strategy2" +:+ "],"
    ; "                " +:+ q "recommended_actions" +:+ ": [" +:+ q "action1" +:+ ", " +:+ q "action2" +:+ "]"
    ; "            }"
    ; "            "
    ].

Definition legal_research_prompt (query : string) : string :=
  unlines
    [ EmptyString
    ; "            Conduct legal research on the following query:"
    ; "            "
    ; "            Query: " +:+ query
    ; "            "
    ; "            Provide:"
    ; "            1. Summary of relevant law"
    ; "            2. Key legal principles"
    ; "            3. Precedent cases (if applicable)"
    ; "            4. Practical implications"
    ; "            5. Recommendations"
    ; "            "
    ; "            Format as JSON:"
    ; "            {"
    ; "                " +:+ q "summary" +:+ ": " +:+ q "<summary>" +:+ ","
    ; "                " +:+ q "key_principles" +:+ ": [" +:+ q "principle1" +:+ ", " +:+ q "principle2" +:+ "],"
    ; "                " +:+ q "precedent_cases" +:+ ": [" +:+ q "case1" +:+ ", " +:+ q "case2" +:+ "],"
    ; "                " +:+ q "practical_implications" +:+ ": [" +:+ q "implication1" +:+ ", " +:+ q "implication2" +:+ "],"
    ; "                " +:+ q "recommendations" +:+ ": [" +:+ q "rec1" +:+ ", " +:+ q "rec2" +:+ "]"
    ; "            }"
    ; "            "
    ].

(** *** Degraded defaults: the dict literal of each handler *)

Definition analyze_contract_default : value :=
  VDict (dict_of
    [ ("risk_score", VInt 5)
    ; ("key_terms", VList [])
    ; ("potential_issues", VList [VStr "Analysis error occurred"])
    ; ("recommendations", VList [VStr "Manual review recommended"])
    ; ("missing_clauses", VList [])
    ]).

Definition assess_legal_risk_default : value :=
  VDict (dict_of
    [ ("risk_level", VStr "Medium")
    ; ("risk_score", VInt 5)
    ; ("risk_factors", VList [VStr "Assessment error occurred"])
    ; ("mitigation_strategies", VList [VStr "Manual review recommended"])
    ; ("recommended_actions", VList [VStr "Consult legal expert"])
    ]).

Definition legal_research_default : value :=
  VDict (dict_of
    [ ("summary", VStr "Research error occurred")
    ; ("key_principles", VList [])
    ; ("precedent_cases", VList [])
    ; ("practical_implications", VList [])
    ; ("recommendations", VList [VStr "Manual research recommended"])
    ]).

(** *** Requests: the arguments of each [acreate] call *)

Definition analyze_contract_request (contract_text : string) : chat_request :=
  {| model := OPENAI_MODEL settings;
     messages :=
       [ mkMessage "system" "You are a legal AI assistant specialized in contract analysis."
       ; mkMessage "user" (analyze_contract_prompt contract_text) ];
     temperature := 0.1 |}.

Definition generate_contract_draft_request
    (contract_type : string) (parties : list string) (key_terms : gmap string value)
  : chat_request :=
  {| model := OPENAI_MODEL settings;
     messages :=
       [ mkMessage "system" "You are a legal AI assistant specialized in contract drafting."
       ; mkMessage "user" (generate_contract_draft_prompt contract_type parties key_terms) ];
     temperature := 0.2 |}.

Definition assess_legal_risk_request
    (description : string) (context : gmap string value) : chat_request :=
  {| model := OPENAI_MODEL settings;
     messages :=
       [ mkMessage "system" "You are a legal risk assessment AI assistant."
       ; mkMessage "user" (assess_legal_risk_prompt description context) ];
     temperature := 0.1 |}.

Definition legal_research_request (query : string) : chat_request :=
  {| model := OPENAI_MODEL settings;
     messages :=
       [ mkMessage "system" "You are a legal research AI assistant."
       ; mkMessage "user" (legal_research_prompt query) ];
     temperature := 0.1 |}.

(** *** The four methods *)

Definition analyze_contract (contract_text : string) : M exn value :=
  try_except
    (response <- acreate (analyze_contract_request contract_text) ;;
     choice <- index0 (choices response) ;;
     loads (content (message choice)))
    (fun e =>
       logger_error ("Error analyzing contract: " +:+ str e) ;;;
       ret analyze_contract_default).

Definition generate_contract_draft
    (contract_type : string) (parties : list string) (key_terms : gmap string value)
  : M exn string :=
  try_except
    (response <- acreate (generate_contract_draft_request contract_type parties key_terms) ;;
     choice <- index0 (choices response) ;;
     ret (content (message choice)))
    (fun e =>
       logger_error ("Error generating contract: " +:+ str e) ;;;
       ret ("Error generating contract draft: " +:+ str e)).

Definition assess_legal_risk
    (description : string) (context : gmap string value) : M exn value :=
  try_except
    (response <- acreate (assess_legal_risk_request description context) ;;
     choice <- index0 (choices response) ;;
     loads (content (message choice)))
    (fun e =>
       logger_error ("Error assessing risk: " +:+ str e) ;;;
       ret assess_legal_risk_default).

Definition legal_research (query : string) : M exn value :=
  try_except
    (response <- acreate (legal_research_request query) ;;
     choice <- index0 (choices response) ;;
     loads (content (message choice)))
    (fun e =>
       logger_error ("Error in legal research: " +:+ str e) ;;;
       ret legal_research_default).

End Methods.
End AIService.

(** ** The HTTP routes that post-process a method's result *)

Section Routes.
Context `{env : Platform}.

(** [v.get(key, default)]: only a dict has the attribute. *)
Definition py_get (v : value) (key : string) (default_value : value) : exn + value :=
  match v with
  | VDict m => inr (default default_value (m !! key))
  | _ =>
      inl (Exception "AttributeError"
             ("'" +:+ type_name v +:+ "' object has no attribute 'get'"))
  end.

(** [bool(d)] for a dict *)
Definition dict_truthy (d : gmap string value) : bool := negb (size d =? 0)%nat.

(** [context or {}] for an optional dict *)
Definition or_empty_dict (c : option (gmap string value)) : gmap string value :=
  match c with
  | None => ∅
  | Some d => if dict_truthy d then d else ∅
  end.

(** The fields of [ContractAnalysisResponse] that reject their argument. *)
Definition rejected {A} (field : string) (v : value) (checked : option A)
  : list (string * value) :=
  match checked with
  | Some _ => []
  | None => [(field, v)]
  end.

Definition ContractAnalysisResponse_failures (rs kt pi rc mc : value)
  : list (string * value) :=
  rejected "risk_score" rs (validate_int rs) ++
  rejected "key_terms" kt (validate_list_str kt) ++
  rejected "potential_issues" pi (validate_list_str pi) ++
  rejected "recommendations" rc (validate_list_str rc) ++
  rejected "missing_clauses" mc (validate_list_str mc).

(** [ContractAnalysisResponse(risk_score=rs, key_terms=kt, ...)] *)
Definition ContractAnalysisResponse_init (rs kt pi rc mc : value)
  : exn + ContractAnalysisResponse :=
  match validate_int rs, validate_list_str kt, validate_list_str pi,
        validate_list_str rc, validate_list_str mc with
  | Some rs', Some kt', Some pi', Some rc', Some mc' =>
      inr (mkContractAnalysisResponse rs' kt' pi' rc' mc')
  | _, _, _, _, _ =>
      inl (validation_error "ContractAnalysisResponse"
             (ContractAnalysisResponse_failures rs kt pi rc mc))
  end.

(** [POST /api/v1/ai/analyze-contract] *)
Definition analyze_contract (request : ContractAnalysisRequest)
  : M HTTPException ContractAnalysisResponse :=
  try_except
    (analysis <- AIService.analyze_contract (contract_text request) ;;
     rs <- lift (py_get analysis "risk_score" (VInt 5)) ;;
     kt <- lift (py_get analysis "key_terms" (VList [])) ;;
     pi <- lift (py_get analysis "potential_issues" (VList [])) ;;
     rc <- lift (py_get analysis "recommendations" (VList [])) ;;
     mc <- lift (py_get analysis "missing_clauses" (VList [])) ;;
     lift (ContractAnalysisResponse_init rs kt pi rc mc))
    (fun e =>
       logger_error ("Contract analysis error: " +:+ str e) ;;;
       raise (mkHTTPException 500 "Contract analysis failed")).

(** [datetime.utcnow().isoformat()] *)
Definition now {E} : M E string := fun w => (inr (utcnow_isoformat w), w).

(** [POST /api/v1/ai/assess-risk] *)
Definition assess_risk (description : string) (context : option (gmap string value))
  : M HTTPException value :=
  try_except
    (risk_assessment <- AIService.assess_legal_risk description (or_empty_dict context) ;;
     assessed_at <- now ;;
     ret (VDict (dict_of
            [ ("risk_assessment", risk_assessment)
            ; ("assessed_at", VStr assessed_at) ])))
    (fun e =>
       logger_error ("Risk assessment error: " +:+ str e) ;;;
       raise (mkHTTPException 500 "Risk assessment failed")).

End Routes.

(** ** The outcome of the model call, and the documented schemas *)

(** What [response.choices[0].message.content] evaluates to once the
    completion service has answered or raised. *)
Definition first_completion (r : exn + chat_response) : exn + string :=
  match r with
  | inl e => inl e
  | inr response =>
      match choices response with
      | choice :: _ => inr (content (message choice))
      | [] => inl (Exception "IndexError" "list index out of range")
      end
  end.

(** The requests a trace records, oldest first. *)
Definition requests_of (tr : world) : list chat_request :=
  omap (fun ev => match ev with EvAcreate req => Some req | _ => None end) tr.

Definition is_dict (v : value) : bool :=
  match v with VDict _ => true | _ => false end.

Definition is_int (v : value) : bool :=
  match v with VInt _ => true | _ => false end.

Definition is_str (v : value) : bool :=
  match v with VStr _ => true | _ => false end.

Definition is_str_list (v : value) : bool :=
  match v with VList l => forallb is_str l | _ => false end.

Definition is_risk_level (v : value) : bool :=
  match v with
  | VStr s =>
      bool_decide (s = "Low") || bool_decide (s = "Medium") ||
      bool_decide (s = "High") || bool_decide (s = "Critical")
  | _ => false
  end.

(** The field is present and its value has the listed type. *)
Definition has_field (m : gmap string value) (field : string) (ty : value -> bool) : bool :=
  match m !! field with
  | Some v => ty v
  | None => false
  end.

(** The success schema of AnalyzeContract. *)
Definition conforms_analysis (v : value) : bool :=
  match v with
  | VDict m =>
      has_field m "risk_score" is_int && has_field m "key_terms" is_str_list &&
      has_field m "potential_issues" is_str_list &&
      has_field m "recommendations" is_str_list &&
      has_field m "missing_clauses" is_str_list
  | _ => false
  end.

(** The success schema of AssessRisk. *)
Definition conforms_risk (v : value) : bool :=
  match v with
  | VDict m =>
      has_field m "risk_level" is_risk_level && has_field m "risk_score" is_int &&
      has_field m "risk_factors" is_str_list &&
      has_field m "mitigation_strategies" is_str_list &&
      has_field m "recommended_actions" is_str_list
  | _ => false
  end.

(** The success schema of Research. *)
Definition conforms_research (v : value) : bool :=
  match v with
  | VDict m =>
      has_field m "summary" is_str && has_field m "key_principles" is_str_list &&
      has_field m "precedent_cases" is_str_list &&
      has_field m "practical_implications" is_str_list &&
      has_field m "recommendations" is_str_list
  | _ => false
  end.

(** The Research row of the specification's table of degraded defaults:
    the summary, and every remaining field an empty list. *)
Definition spec_legal_research_default : value :=
  VDict (dict_of
    [ ("summary", VStr "Research error occurred")
    ; ("key_principles", VList [])
    ; ("precedent_cases", VList [])
    ; ("practical_implications", VList [])
    ; ("recommendations", VList [])
    ]).

(** ** Stand-ins for closed examples *)

Module Stub.

(** A completion service that always answers with one choice. *)
Definition replying (text : string) : world -> chat_request -> exn + chat_response :=
  fun _ _ => inr (mkResponse [mkChoice (mkMessage "assistant" text)]).

(** A completion service that always raises. *)
Definition failing (e : exn) : world -> chat_request -> exn + chat_response :=
  fun _ _ => inl e.

(** A completion service whose answer depends on what happened before:
    it raises on the first call and answers afterwards. *)
Definition warming_up (e : exn) (text : string)
  : world -> chat_request -> exn + chat_response :=
  fun w req => match w with [] => failing e w req | _ :: _ => replying text w req end.

(** Accepts exactly the integers. *)
Definition strict_int (v : value) : option Z :=
  match v with VInt n => Some n | _ => None end.

Definition strict_str (v : value) : option string :=
  match v with VStr s => Some s | _ => None end.

(** Accepts exactly the lists of strings. *)
Definition strict_list_str (v : value) : option (list string) :=
  match v with VList l => mapM strict_str l | _ => None end.

(** Right on the empty dict, a placeholder elsewhere. *)
Definition dumps (indent : nat) (v : value) : string :=
  match v with
  | VDict m => if (size m =? 0)%nat then "{}" else "{...}"
  | _ => "..."
  end.

Definition error_of (name : string) (fields : list (string * value)) : exn :=
  Exception "ValidationError"
    ("validation errors for " +:+ name +:+ ": " +:+ join ", " (fields.*1)).

Definition platform (p : world -> chat_request -> exn + chat_response) : Platform :=
  {| settings := default_settings;
     provider := p;
     json_loads := JsonRef.json_loads;
     json_dumps := dumps;
     utcnow_isoformat := fun _ => "2024-01-01T00:00:00";
     validate_int := strict_int;
     validate_list_str := strict_list_str;
     validation_error := error_of |}.

Definition timeout_error : exn := Exception "Timeout" "Request timed out".

(** The completion service is unreachable. *)
Definition timing_out : Platform := platform (failing timeout_error).

(** The model answers with a bare number. *)
Definition answers_seven : Platform := platform (replying "7").

(** The model answers in prose. *)
Definition answers_prose : Platform :=
  platform (replying "I am sorry, I cannot analyze this contract.").

(** The model answers with an object whose score is null. *)
Definition answers_null_score : Platform :=
  platform (replying ("{" +:+ q "risk_score" +:+ ": null}")).

(** The model answers with an object that has one field only. *)
Definition answers_score_only : Platform :=
  platform (replying ("{" +:+ q "risk_score" +:+ ": 8}")).

(** The model answers with a list. *)
Definition answers_list : Platform := platform (replying "[1, 2]").

(** The first call fails, the later ones are answered. *)
Definition recovering : Platform := platform (warming_up timeout_error "[1, 2]").

(** The reply of the specification's AnalyzeContract scenario. *)
Definition scenario_reply : string :=
  "{" +:+ q "risk_score" +:+ ":7," +:+ q "key_terms" +:+ ":[" +:+ q "indemnification" +:+ "],"
  +:+ q "potential_issues" +:+ ":[" +:+ q "one-sided termination" +:+ "],"
  +:+ q "recommendations" +:+ ":[" +:+ q "add mutual termination" +:+ "],"
  +:+ q "missing_clauses" +:+ ":[" +:+ q "force majeure" +:+ "]}".

(** The mapping that reply denotes. *)
Definition scenario_mapping : value :=
  VDict (dict_of
    [ ("risk_score", VInt 7)
    ; ("key_terms", VList [VStr "indemnification"])
    ; ("potential_issues", VList [VStr "one-sided termination"])
    ; ("recommendations", VList [VStr "add mutual termination"])
    ; ("missing_clauses", VList [VStr "force majeure"])
    ]).

(** The trace a failed risk assessment leaves behind. *)
Definition after_failed_call : world :=
  (AIService.assess_legal_risk (env := recovering) "Late delivery" ∅ []).2.

(** The model answers with the scenario's reply. *)
Definition answers_scenario : Platform := platform (replying scenario_reply).

End Stub.

(** ** The chat and generate-contract routes

    From here on the embedding covers the code around the service: the
    two remaining AI routes, the token functions with the login route,
    and the upload route.  What they take from libraries is again a
    class field ([StrField], [Runtime]). *)

Module AIAssistantRequest.
Record t : Type := make {
  message : string;
  context : option (gmap string value)
}.
End AIAssistantRequest.

Module AIAssistantResponse.
Record t : Type := make {
  response : string;
  confidence : float;
  suggestions : list string
}.
End AIAssistantResponse.

(** Validation of a value against a [str] field of a response model. *)
Class StrField : Type := { validate_str : value -> option string }.

Section MoreRoutes.
Context `{env : Platform} `{sf : StrField}.

(** [AIAssistantResponse(response=r, confidence=c, suggestions=s)]; the
    confidence is always given as a float literal. *)
Definition AIAssistantResponse_init (r : value) (c : float) (s : value)
  : exn + AIAssistantResponse.t :=
  match validate_str r, validate_list_str s with
  | Some r', Some s' => inr (AIAssistantResponse.make r' c s')
  | _, _ =>
      inl (validation_error "AIAssistantResponse"
             (rejected "response" r (validate_str r) ++
              rejected "suggestions" s (validate_list_str s)))
  end.

(** [POST /api/v1/ai/chat] *)
Definition ai_chat (request : AIAssistantRequest.t)
  : M HTTPException AIAssistantResponse.t :=
  try_except
    (response <- AIService.legal_research (AIAssistantRequest.message request) ;;
     r <- lift (py_get response "summary" (VStr "I'm here to help with legal questions.")) ;;
     s <- lift (py_get response "recommendations" (VList [])) ;;
     lift (AIAssistantResponse_init r 0.85 s))
    (fun e =>
       logger_error ("AI chat error: " +:+ str e) ;;;
       raise (mkHTTPException 500 "AI service error")).

(** [POST /api/v1/ai/generate-contract] *)
Definition generate_contract
    (contract_type : string) (parties : list string) (key_terms : gmap string value)
  : M HTTPException value :=
  try_except
    (contract_draft <- AIService.generate_contract_draft contract_type parties key_terms ;;
     generated_at <- now ;;
     ret (VDict (dict_of
            [ ("contract_draft", VStr contract_draft)
            ; ("contract_type", VStr contract_type)
            ; ("parties", VList (VStr <$> parties))
            ; ("generated_at", VStr generated_at) ])))
    (fun e =>
       logger_error ("Contract generation error: " +:+ str e) ;;;
       raise (mkHTTPException 500 "Contract generation failed")).

End MoreRoutes.

(** ** Notions used to state the properties of the routes *)

(** The error records of a trace, oldest first. *)
Definition errors_logged (tr : world) : list string :=
  omap (fun ev => match ev with EvLoggerError msg => Some msg | _ => None end) tr.

(** The response models leave a value of the field's own type as it is. *)
Definition accepts_own_types `{env : Platform} : Prop :=
  (forall n, validate_int (VInt n) = Some n)
  /\ (forall l, validate_list_str (VList (VStr <$> l)) = Some l).

Definition accepts_str `{sf : StrField} : Prop :=
  forall s, validate_str (VStr s) = Some s.

(** The model call raised, or its reply did not decode. *)
Definition degraded `{env : Platform} (w : world) (req : chat_request) : Prop :=
  match first_completion (provider w req) with
  | inl _ => True
  | inr t => match json_loads t with inl _ => True | inr _ => False end
  end.

Module Fixture.

Definition strict : StrField := {| validate_str := Stub.strict_str |}.

(** The model answers with an object that has no summary. *)
Definition answers_principles_only : Platform :=
  Stub.platform (Stub.replying ("{" +:+ q "key_principles" +:+ ": [" +:+ q "estoppel" +:+ "]}")).

(** The scenario's object with one more field. *)
Definition scenario_reply_with_extra : string :=
  "{" +:+ q "risk_score" +:+ ":7," +:+ q "key_terms" +:+ ":[" +:+ q "indemnification" +:+ "],"
  +:+ q "potential_issues" +:+ ":[" +:+ q "one-sided termination" +:+ "],"
  +:+ q "recommendations" +:+ ":[" +:+ q "add mutual termination" +:+ "],"
  +:+ q "missing_clauses" +:+ ":[" +:+ q "force majeure" +:+ "],"
  +:+ q "confidence" +:+ ":0}".

(** The first answer carries the extra field, the later ones do not. *)
Definition extra_field_first : Platform :=
  Stub.platform (fun w req =>
    match w with
    | [] => Stub.replying scenario_reply_with_extra w req
    | _ :: _ => Stub.replying Stub.scenario_reply w req
    end).

End Fixture.

(** The prompt a request carries: the content of its last message. *)
Definition user_prompt (req : chat_request) : string :=
  match last (messages req) with
  | Some m => content m
  | None => EmptyString
  end.

(** ** The rest of the process: clock, identifiers, files, tokens

    The routes below read the clock to compute with it, draw UUIDs and
    write files.  Their state is the trace of the AI service together
    with a trace of these interactions, so that two readings of the
    clock, or two draws, need not agree. *)

Inductive sys_event : Type :=
| SysUtcnow                                      (* datetime.utcnow() *)
| SysUuid4                                       (* uuid.uuid4() *)
| SysWrite (path : string) (data : list Byte.byte).   (* open(path, "wb"), f.write(data) *)

Record sys : Type := mkSys { trace : world; sys_trace : list sys_event }.

(** The fields of [settings] read by the token and upload code. *)
Record MoreSettings : Type := mkMoreSettings {
  SECRET_KEY : string;
  ACCESS_TOKEN_EXPIRE_MINUTES : Z;
  REFRESH_TOKEN_EXPIRE_DAYS : Z;
  UPLOAD_DIR : string
}.

Definition default_more_settings : MoreSettings :=
  {| SECRET_KEY := "your-secret-key-change-in-production";
     ACCESS_TOKEN_EXPIRE_MINUTES := 30;
     REFRESH_TOKEN_EXPIRE_DAYS := 7;
     UPLOAD_DIR := "uploads" |}.

(** A naive [datetime]: microseconds since 0001-01-01T00:00:00. *)
Definition datetime : Type := Z.

(** A [timedelta]: microseconds. *)
Definition timedelta : Type := Z.

(** A claim handed to [jwt.encode]: a plain value, or a [datetime]. *)
Inductive claim : Type :=
| Claim (v : value)
| ClaimDatetime (t : datetime).

Class Runtime : Type := {
  more_settings : MoreSettings;
  (** [datetime.utcnow()] *)
  utcnow : sys -> datetime;
  (** [t.isoformat()] *)
  isoformat : datetime -> string;
  (** [str(uuid.uuid4())] *)
  uuid4 : sys -> string;
  (** writing a file: the error raised by [open] or [write], if any *)
  write_file : sys -> string -> list Byte.byte -> option exn;
  (** [str(Path(directory) / name)] *)
  path_join : string -> string -> string;
  (** [jwt.encode(claims, key, algorithm=alg)] *)
  jwt_encode : gmap string claim -> string -> string -> exn + string;
  (** [jwt.decode(token, key, algorithms=algs)], which checks the expiry
      against the clock *)
  jwt_decode : sys -> string -> string -> list string -> exn + gmap string value;
  (** the [OverflowError] of a [timedelta] outside its range *)
  timedelta_overflow : Z -> Z -> exn;
  (** the [OverflowError] of a [datetime] outside its range *)
  datetime_overflow : exn
}.

Definition IO (E A : Type) : Type := sys -> (E + A) * sys.

Definition io_ret {E A} (a : A) : IO E A := fun s => (inr a, s).

Definition io_raise {E A} (e : E) : IO E A := fun s => (inl e, s).

Definition io_bind {E A B} (c : IO E A) (k : A -> IO E B) : IO E B :=
  fun s =>
    match c s with
    | (inl e, s') => (inl e, s')
    | (inr a, s') => k a s'
    end.

(** [try: body  except Exception as e: handler(e)] *)
Definition io_try_except {E E' A} (body : IO E A) (handler : E -> IO E' A) : IO E' A :=
  fun s =>
    match body s with
    | (inl e, s') => handler e s'
    | (inr a, s') => (inr a, s')
    end.

Definition io_lift {E A} (r : E + A) : IO E A := fun s => (r, s).

(** A computation of the AI service, run on its part of the state. *)
Definition of_M {E A} (c : M E A) : IO E A :=
  fun s =>
    match c (trace s) with
    | (r, w') => (r, mkSys w' (sys_trace s))
    end.

Definition sys_emit (s : sys) (ev : sys_event) : sys :=
  mkSys (trace s) (sys_trace s ++ [ev]).

Declare Scope io_scope.
Delimit Scope io_scope with io.
Notation "x <- c ;; k" := (io_bind c (fun x => k))
  (at level 100, c at next level, right associativity) : io_scope.
Notation "c ;;; k" := (io_bind c (fun _ => k))
  (at level 100, right associativity) : io_scope.

Record LoginRequest : Type := mkLoginRequest { email : string; password : string }.

Record TokenResponse : Type := mkTokenResponse {
  access_token : string;
  refresh_token : string;
  token_type : string;
  expires_in : Z
}.

Record HTTPAuthorizationCredentials : Type :=
  mkCredentials { scheme : string; credentials : string }.

(** What [get_current_user] can raise: its own [HTTPException], with
    headers, or whatever [verify_token] lets through. *)
Inductive auth_raised : Type :=
| RaisedHTTP (e : HTTPException) (headers : gmap string string)
| RaisedOther (e : exn).

Section Tokens.
Context `{rt : Runtime}.
Local Open Scope io_scope.

(** [datetime.utcnow()] *)
Definition read_clock {E} : IO E datetime :=
  fun s => (inr (utcnow s), sys_emit s SysUtcnow).

Definition microseconds_per_day : Z := 86400000000.

(** [timedelta(days=d, minutes=m)]: at most 999999999 days either way. *)
Definition timedelta_of (d m : Z) : exn + timedelta :=
  let us := (d * microseconds_per_day + m * 60000000)%Z in
  let days := (us / microseconds_per_day)%Z in
  if ((-999999999 <=? days) && (days <=? 999999999))%Z
  then inr us
  else inl (timedelta_overflow d m).

(** The last instant a [datetime] can hold: 9999-12-31T23:59:59.999999. *)
Definition datetime_max : datetime := (3652059 * microseconds_per_day - 1)%Z.

(** [t + d] *)
Definition datetime_add (t : datetime) (d : timedelta) : exn + datetime :=
  let t' := (t + d)%Z in
  if ((0 <=? t') && (t' <=? datetime_max))%Z then inr t' else inl datetime_overflow.

(** [bool(d)] for a [timedelta] *)
Definition timedelta_truthy (d : timedelta) : bool := negb (d =? 0)%Z.

Definition create_access_token (data : gmap string value) (expires_delta : option timedelta)
  : IO exn string :=
  let to_encode : gmap string claim := Claim <$> data in
  let fallback : IO exn datetime :=
    now <- read_clock ;; io_lift (datetime_add now (15 * 60000000)%Z) in
  expire <-
    match expires_delta with
    | Some d =>
        if timedelta_truthy d
        then now <- read_clock ;; io_lift (datetime_add now d)
        else fallback
    | None => fallback
    end ;;
  let to_encode := <["exp" := ClaimDatetime expire]> to_encode in
  encoded_jwt <- io_lift (jwt_encode to_encode (SECRET_KEY more_settings) "HS256") ;;
  io_ret encoded_jwt.

(** [isinstance(e, JWTError)]: the class and its two subclasses. *)
Definition is_JWTError (e : exn) : bool :=
  bool_decide (exc_class e ∈ ["JWTError"; "ExpiredSignatureError"; "JWTClaimsError"]).

Definition verify_token (token : string) : IO exn (option (gmap string value)) :=
  fun s =>
    match jwt_decode s token (SECRET_KEY more_settings) ["HS256"] with
    | inr payload => (inr (Some payload), s)
    | inl e => if is_JWTError e then (inr None, s) else (inl e, s)
    end.

Definition get_current_user (creds : HTTPAuthorizationCredentials)
  : IO auth_raised (gmap string value) :=
  let token := credentials creds in
  fun s =>
    match verify_token token s with
    | (inl e, s') => (inl (RaisedOther e), s')
    | (inr None, s') =>
        (inl (RaisedHTTP (mkHTTPException 401 "Could not validate credentials")
                {["WWW-Authenticate" := "Bearer"]}), s')
    | (inr (Some payload), s') => (inr payload, s')
    end.

(** [POST /api/v1/auth/login] *)
Definition login_user (login_data : LoginRequest) : IO HTTPException TokenResponse :=
  io_try_except
    (access_token_expires <-
       io_lift (timedelta_of 0 (ACCESS_TOKEN_EXPIRE_MINUTES more_settings)) ;;
     access_token <-
       create_access_token (dict_of [("sub", VStr (email login_data))])
         (Some access_token_expires) ;;
     refresh_token_expires <-
       io_lift (timedelta_of (REFRESH_TOKEN_EXPIRE_DAYS more_settings) 0) ;;
     refresh_token <-
       create_access_token
         (dict_of [("sub", VStr (email login_data)); ("type", VStr "refresh")])
         (Some refresh_token_expires) ;;
     io_ret (mkTokenResponse access_token refresh_token "bearer"
               (ACCESS_TOKEN_EXPIRE_MINUTES more_settings * 60)))
    (fun e =>
       of_M (logger_error ("Login error: " +:+ str e)) ;;;
       io_raise (mkHTTPException 401 "Invalid credentials")).

End Tokens.

(** The token library accepts, before its expiry, a token made with the
    same key and algorithm, and gives back its subject. *)
Definition accepts_unexpired_tokens `{rt : Runtime} : Prop :=
  forall (s : sys) (claims : gmap string claim) (key alg token : string)
         (t : datetime) (sub : value),
    jwt_encode claims key alg = inr token ->
    claims !! "exp" = Some (ClaimDatetime t) ->
    (utcnow s < t)%Z ->
    claims !! "sub" = Some (Claim sub) ->
    exists payload,
      jwt_decode s token key [alg] = inr payload /\ payload !! "sub" = Some sub.

(** ** The upload route *)

Section Upload.
Context `{env : Platform} `{rt : Runtime}.
Local Open Scope io_scope.

(** [str(uuid.uuid4())] *)
Definition draw_uuid {E} : IO E string :=
  fun s => (inr (uuid4 s), sys_emit s SysUuid4).

(** [with open(path, "wb") as f: f.write(data)]; a failed attempt leaves
    no record. *)
Definition save (path : string) (data : list Byte.byte) : IO exn unit :=
  fun s =>
    match write_file s path data with
    | Some e => (inl e, s)
    | None => (inr tt, sys_emit s (SysWrite path data))
    end.

(** [POST /api/v1/documents/upload] *)
Definition upload_document
    (file : list Byte.byte) (filename document_type : string) (matter_id : option string)
  : IO HTTPException value :=
  io_try_except
    (u <- draw_uuid ;;
     let file_path := path_join (UPLOAD_DIR more_settings) (u +:+ "_" +:+ filename) in
     save file_path file ;;;
     ai_analysis <-
       (if String.eqb document_type "contract"
        then of_M (AIService.analyze_contract "Sample contract text")
        else io_ret VNone) ;;
     document_id <- draw_uuid ;;
     uploaded_at <- read_clock ;;
     io_ret (VDict (dict_of
               [ ("document_id", VStr document_id)
               ; ("filename", VStr filename)
               ; ("document_type", VStr document_type)
               ; ("file_path", VStr file_path)
               ; ("ai_analysis", ai_analysis)
               ; ("uploaded_at", VStr (isoformat uploaded_at)) ])))
    (fun e =>
       of_M (logger_error ("Document upload error: " +:+ str e)) ;;;
       io_raise (mkHTTPException 500 "Document upload failed")).

End Upload.

(** ** Stand-ins for the runtime *)

Module Machine.

(** 2024-01-01T00:00:00, and one second more after each interaction. *)
Definition clock (s : sys) : datetime :=
  ((738886 - 1) * 86400000000 + 1000000 * Z.of_nat (length (sys_trace s)))%Z.

(** One identifier before anything has happened, another afterwards. *)
Definition uuids (s : sys) : string :=
  match sys_trace s with
  | [] => "3f2b8c1e-0d4a-4e6b-9a57-1c2d3e4f5a6b"
  | _ :: _ => "9e8d7c6b-5a49-4382-8716-0f1e2d3c4b5a"
  end.

(** A token that shows its key, its algorithm, whether it is a refresh
    token, and its subject. *)
Definition encode (claims : gmap string claim) (key alg : string) : exn + string :=
  match claims !! "sub" with
  | Some (Claim (VStr sub)) =>
      let kind :=
        match claims !! "type" with
        | Some (Claim (VStr ty)) => if String.eqb ty "refresh" then "r:" else "a:"
        | _ => "a:"
        end in
      inr ((key +:+ "|" +:+ alg +:+ "|") +:+ kind +:+ sub)
  | _ => inl (Exception "JWTError" "Subject must be a string.")
  end.

(** Accepts the tokens made with the same key and one algorithm. *)
Definition decode (s : sys) (token key : string) (algs : list string)
  : exn + gmap string value :=
  match algs with
  | [alg] =>
      match JsonRef.strip_prefix (key +:+ "|" +:+ alg +:+ "|") token with
      | Some body =>
          match JsonRef.strip_prefix "r:" body, JsonRef.strip_prefix "a:" body with
          | Some sub, _ => inr (dict_of [("sub", VStr sub); ("type", VStr "refresh")])
          | None, Some sub => inr (dict_of [("sub", VStr sub)])
          | None, None => inl (Exception "JWTError" "Not enough segments")
          end
      | None => inl (Exception "JWTError" "Signature verification failed.")
      end
  | _ => inl (Exception "JWTError" "The specified alg value is not allowed")
  end.

(** The default settings, the clock and identifiers above, paths joined
    with a slash, and a printer of instants that tells the first one from
    the later ones. *)
Definition runtime (disk : sys -> string -> list Byte.byte -> option exn) : Runtime :=
  {| more_settings := default_more_settings;
     utcnow := clock;
     isoformat := fun t =>
       if (t =? clock (mkSys [] []))%Z then "2024-01-01T00:00:00" else "2024-01-01T00:00:01";
     uuid4 := uuids;
     write_file := disk;
     path_join := fun d n => d +:+ "/" +:+ n;
     jwt_encode := encode;
     jwt_decode := decode;
     timedelta_overflow := fun _ _ => Exception "OverflowError" "days out of range";
     datetime_overflow := Exception "OverflowError" "date value out of range" |}.

Definition no_space : exn := Exception "OSError" "[Errno 28] No space left on device".

(** Every write succeeds. *)
Definition healthy : Runtime := runtime (fun _ _ _ => None).

(** Every write fails. *)
Definition disk_full : Runtime := runtime (fun _ _ _ => Some no_space).

Definition boot : sys := mkSys [] [].

End Machine.

(** * Properties *)

(** ** How the methods run *)

Section Runs.
Context `{env : Platform}.

(** The shape shared by the three methods that decode the reply: one
    model call, then either the decoded value, or a log record and the
    handler's literal. *)
Lemma json_pipeline_run (req : chat_request) (label : string) (dflt : value) (w : world) :
  try_except
    (response <- acreate req ;;
     choice <- index0 (choices response) ;;
     loads (content (message choice)))
    (fun e => logger_error (label +:+ str e) ;;; ret dflt) w
  = match first_completion (provider w req) return (exn + value) * world with
    | inl e =>
        (inr dflt, (w ++ [EvAcreate req]) ++ [EvLoggerError (label +:+ str e)])
    | inr t =>
        match json_loads t return (exn + value) * world with
        | inr v => (inr v, (w ++ [EvAcreate req]) ++ [EvJsonLoads t])
        | inl e =>
            (inr dflt,
             ((w ++ [EvAcreate req]) ++ [EvJsonLoads t])
               ++ [EvLoggerError (label +:+ str e)])
        end
    end.
Proof.
  unfold try_except, bind, acreate, loads, logger_error, emit, ret, first_completion.
  destruct (provider w req) as [e | [[ | choice rest]]]; cbn; reflexivity.
Qed.

Lemma analyze_contract_run (text : string) (w : world) :
  AIService.analyze_contract text w
  = match first_completion (provider w (AIService.analyze_contract_request text)) return (exn + value) * world with
    | inl e =>
        (inr AIService.analyze_contract_default,
         (w ++ [EvAcreate (AIService.analyze_contract_request text)])
           ++ [EvLoggerError ("Error analyzing contract: " +:+ str e)])
    | inr t =>
        match json_loads t return (exn + value) * world with
        | inr v =>
            (inr v, (w ++ [EvAcreate (AIService.analyze_contract_request text)])
                      ++ [EvJsonLoads t])
        | inl e =>
            (inr AIService.analyze_contract_default,
             ((w ++ [EvAcreate (AIService.analyze_contract_request text)])
                ++ [EvJsonLoads t])
               ++ [EvLoggerError ("Error analyzing contract: " +:+ str e)])
        end
    end.
Proof. apply json_pipeline_run. Qed.

Lemma assess_legal_risk_run (description : string) (ctx : gmap string value) (w : world) :
  AIService.assess_legal_risk description ctx w
  = match first_completion
            (provider w (AIService.assess_legal_risk_request description ctx)) return (exn + value) * world with
    | inl e =>
        (inr AIService.assess_legal_risk_default,
         (w ++ [EvAcreate (AIService.assess_legal_risk_request description ctx)])
           ++ [EvLoggerError ("Error assessing risk: " +:+ str e)])
    | inr t =>
        match json_loads t return (exn + value) * world with
        | inr v =>
            (inr v, (w ++ [EvAcreate (AIService.assess_legal_risk_request description ctx)])
                      ++ [EvJsonLoads t])
        | inl e =>
            (inr AIService.assess_legal_risk_default,
             ((w ++ [EvAcreate (AIService.assess_legal_risk_request description ctx)])
                ++ [EvJsonLoads t])
               ++ [EvLoggerError ("Error assessing risk: " +:+ str e)])
        end
    end.
Proof. apply json_pipeline_run. Qed.

Lemma legal_research_run (query : string) (w : world) :
  AIService.legal_research query w
  = match first_completion (provider w (AIService.legal_research_request query)) return (exn + value) * world with
    | inl e =>
        (inr AIService.legal_research_default,
         (w ++ [EvAcreate (AIService.legal_research_request query)])
           ++ [EvLoggerError ("Error in legal research: " +:+ str e)])
    | inr t =>
        match json_loads t return (exn + value) * world with
        | inr v =>
            (inr v, (w ++ [EvAcreate (AIService.legal_research_request query)])
                      ++ [EvJsonLoads t])
        | inl e =>
            (inr AIService.legal_research_default,
             ((w ++ [EvAcreate (AIService.legal_research_request query)])
                ++ [EvJsonLoads t])
               ++ [EvLoggerError ("Error in legal research: " +:+ str e)])
        end
    end.
Proof. apply json_pipeline_run. Qed.

(** The drafting method never decodes: one model call, then the text as
    it is, or a log record and the error string. *)
Lemma generate_contract_draft_run
    (ctype : string) (parties : list string) (terms : gmap string value) (w : world) :
  AIService.generate_contract_draft ctype parties terms w
  = match first_completion
            (provider w (AIService.generate_contract_draft_request ctype parties terms)) return (exn + string) * world with
    | inl e =>
        (inr ("Error generating contract draft: " +:+ str e),
         (w ++ [EvAcreate (AIService.generate_contract_draft_request ctype parties terms)])
           ++ [EvLoggerError ("Error generating contract: " +:+ str e)])
    | inr t =>
        (inr t, w ++ [EvAcreate (AIService.generate_contract_draft_request ctype parties terms)])
    end.
Proof.
  unfold AIService.generate_contract_draft, try_except, bind, acreate,
    logger_error, emit, ret, first_completion.
  destruct (provider w _) as [e | [[ | choice rest]]]; reflexivity.
Qed.

End Runs.

(** ** The example decoder on small texts *)

Example json_loads_number : JsonRef.json_loads "7" = inr (VInt 7).
Proof. reflexivity. Qed.

Example json_loads_list :
  JsonRef.json_loads " [1, -20, true, null] "
  = inr (VList [VInt 1; VInt (-20); VBool true; VNone]).
Proof. vm_compute. reflexivity. Qed.

Example json_loads_object_last_binding_wins :
  JsonRef.json_loads ("{" +:+ q "a" +:+ ": 1, " +:+ q "a" +:+ ": [" +:+ q "x" +:+ "]}")
  = inr (VDict (dict_of [("a", VList [VStr "x"])])).
Proof. vm_compute. reflexivity. Qed.

Example json_loads_prose :
  JsonRef.json_loads "Sure, here is the analysis."
  = inl (JsonRef.JSONDecodeError "Expecting value").
Proof. vm_compute. reflexivity. Qed.

Example json_loads_trailing_text :
  JsonRef.json_loads "7 is the score" = inl (JsonRef.JSONDecodeError "Extra data").
Proof. vm_compute. reflexivity. Qed.

Example json_loads_scenario :
  JsonRef.json_loads Stub.scenario_reply = inr Stub.scenario_mapping.
Proof. vm_compute. reflexivity. Qed.

(** ** The model call raises *)

(** C1 (as amended).  When the model call raises [e], each method returns
    the literal of its handler: AnalyzeContract and AssessRisk the
    documented mappings, GenerateDraft the string
    "Error generating contract draft: " followed by [str(e)], and Research
    the mapping with summary "Research error occurred", three empty lists
    and recommendations ["Manual research recommended"]. *)
Theorem invoker_error_gives_degraded_default `{env : Platform} (w : world) (e : exn) :
  (forall text,
      first_completion (provider w (AIService.analyze_contract_request text)) = inl e ->
      (AIService.analyze_contract text w).1
      = inr (VDict (dict_of
          [ ("risk_score", VInt 5)
          ; ("key_terms", VList [])
          ; ("potential_issues", VList [VStr "Analysis error occurred"])
          ; ("recommendations", VList [VStr "Manual review recommended"])
          ; ("missing_clauses", VList []) ])))
  /\ (forall ctype parties terms,
      first_completion
        (provider w (AIService.generate_contract_draft_request ctype parties terms)) = inl e ->
      (AIService.generate_contract_draft ctype parties terms w).1
      = inr ("Error generating contract draft: " +:+ str e))
  /\ (forall description ctx,
      first_completion
        (provider w (AIService.assess_legal_risk_request description ctx)) = inl e ->
      (AIService.assess_legal_risk description ctx w).1
      = inr (VDict (dict_of
          [ ("risk_level", VStr "Medium")
          ; ("risk_score", VInt 5)
          ; ("risk_factors", VList [VStr "Assessment error occurred"])
          ; ("mitigation_strategies", VList [VStr "Manual review recommended"])
          ; ("recommended_actions", VList [VStr "Consult legal expert"]) ])))
  /\ (forall query,
      first_completion (provider w (AIService.legal_research_request query)) = inl e ->
      (AIService.legal_research query w).1
      = inr (VDict (dict_of
          [ ("summary", VStr "Research error occurred")
          ; ("key_principles", VList [])
          ; ("precedent_cases", VList [])
          ; ("practical_implications", VList [])
          ; ("recommendations", VList [VStr "Manual research recommended"]) ]))).
Proof.
  repeat split.
  - intros text Hfail. rewrite analyze_contract_run, Hfail. reflexivity.
  - intros ctype parties terms Hfail.
    rewrite generate_contract_draft_run, Hfail. reflexivity.
  - intros description ctx Hfail. rewrite assess_legal_risk_run, Hfail. reflexivity.
  - intros query Hfail. rewrite legal_research_run, Hfail. reflexivity.
Qed.

Section TimingOut.
#[local] Existing Instance Stub.timing_out.

(** The specification's AssessRisk scenario: the model call times out. *)
Lemma invoker_error_gives_degraded_default_witness :
  first_completion
    (provider [] (AIService.assess_legal_risk_request "Late delivery" ∅))
  = inl Stub.timeout_error
  /\ (AIService.assess_legal_risk "Late delivery" ∅ []).1
     = inr (VDict (dict_of
         [ ("risk_level", VStr "Medium")
         ; ("risk_score", VInt 5)
         ; ("risk_factors", VList [VStr "Assessment error occurred"])
         ; ("mitigation_strategies", VList [VStr "Manual review recommended"])
         ; ("recommended_actions", VList [VStr "Consult legal expert"]) ])).
Proof.
  split; [reflexivity | ].
  apply (invoker_error_gives_degraded_default [] Stub.timeout_error).
  reflexivity.
Defined.

(** C1 as stated fails for Research: after a failed model call the
    result is not the table's row, whose recommendations are empty. *)
Lemma research_default_differs_from_table :
  first_completion (provider [] (AIService.legal_research_request "adverse possession"))
  = inl Stub.timeout_error
  /\ (AIService.legal_research "adverse possession" []).1
     <> inr spec_legal_research_default.
Proof.
  split; [reflexivity | ]. intros Heq.
  apply (f_equal (fun r : exn + value =>
                    match r with
                    | inr (VDict m) => m !! "recommendations"
                    | _ => None
                    end)) in Heq.
  vm_compute in Heq. discriminate Heq.
Qed.

End TimingOut.

(** ** No exception reaches the caller *)

(** C2 (as amended).  Whatever the model call does, every method returns
    and does not raise; a decoding method returns either its degraded
    default or the value decoded from the reply, whatever its shape; the
    drafting method returns a string; and each degraded default conforms
    to its task's success schema. *)
Theorem gateway_never_raises `{env : Platform} (w : world) :
  (forall text, exists v,
      (AIService.analyze_contract text w).1 = inr v
      /\ (v = AIService.analyze_contract_default
          \/ exists t,
               first_completion (provider w (AIService.analyze_contract_request text)) = inr t
               /\ json_loads t = inr v))
  /\ (forall ctype parties terms, exists s : string,
      (AIService.generate_contract_draft ctype parties terms w).1 = inr s)
  /\ (forall description ctx, exists v,
      (AIService.assess_legal_risk description ctx w).1 = inr v
      /\ (v = AIService.assess_legal_risk_default
          \/ exists t,
               first_completion
                 (provider w (AIService.assess_legal_risk_request description ctx)) = inr t
               /\ json_loads t = inr v))
  /\ (forall query, exists v,
      (AIService.legal_research query w).1 = inr v
      /\ (v = AIService.legal_research_default
          \/ exists t,
               first_completion (provider w (AIService.legal_research_request query)) = inr t
               /\ json_loads t = inr v))
  /\ conforms_analysis AIService.analyze_contract_default = true
  /\ conforms_risk AIService.assess_legal_risk_default = true
  /\ conforms_research AIService.legal_research_default = true.
Proof.
  split; [ | split; [ | split; [ | split ] ] ].
  - intros text. rewrite analyze_contract_run.
    destruct (first_completion _) as [e | t] eqn:Hc; [eauto | ].
    destruct (json_loads t) as [e | v] eqn:Hd; eauto 6.
  - intros ctype parties terms. rewrite generate_contract_draft_run.
    destruct (first_completion _); eauto.
  - intros description ctx. rewrite assess_legal_risk_run.
    destruct (first_completion _) as [e | t] eqn:Hc; [eauto | ].
    destruct (json_loads t) as [e | v] eqn:Hd; eauto 6.
  - intros query. rewrite legal_research_run.
    destruct (first_completion _) as [e | t] eqn:Hc; [eauto | ].
    destruct (json_loads t) as [e | v] eqn:Hd; eauto 6.
  - repeat split; vm_compute; reflexivity.
Qed.

(** C2 as stated fails: a reply that is valid JSON but not an object is
    returned as it is, and does not have the schema's shape. *)
Lemma decoded_number_breaks_schema :
  (AIService.analyze_contract (env := Stub.answers_seven) "This Agreement ..." []).1
  = inr (VInt 7)
  /\ conforms_analysis (VInt 7) = false.
Proof. split; vm_compute; reflexivity. Qed.

(** ** The reply is valid JSON *)

(** C3 (as amended).  For the three decoding methods (AnalyzeContract,
    AssessRisk, Research), when the reply decodes to [v] the result is
    [v] itself; GenerateDraft returns the reply's text, not its decoding. *)
Theorem valid_json_returned_unchanged `{env : Platform}
    (w : world) (t : string) (v : value) :
  json_loads t = inr v ->
  (forall text,
      first_completion (provider w (AIService.analyze_contract_request text)) = inr t ->
      (AIService.analyze_contract text w).1 = inr v)
  /\ (forall description ctx,
      first_completion
        (provider w (AIService.assess_legal_risk_request description ctx)) = inr t ->
      (AIService.assess_legal_risk description ctx w).1 = inr v)
  /\ (forall query,
      first_completion (provider w (AIService.legal_research_request query)) = inr t ->
      (AIService.legal_research query w).1 = inr v)
  /\ (forall ctype parties terms,
      first_completion
        (provider w (AIService.generate_contract_draft_request ctype parties terms)) = inr t ->
      (AIService.generate_contract_draft ctype parties terms w).1 = inr t).
Proof.
  intros Hdec. repeat split.
  - intros text Hc. rewrite analyze_contract_run, Hc, Hdec. reflexivity.
  - intros description ctx Hc. rewrite assess_legal_risk_run, Hc, Hdec. reflexivity.
  - intros query Hc. rewrite legal_research_run, Hc, Hdec. reflexivity.
  - intros ctype parties terms Hc. rewrite generate_contract_draft_run, Hc. reflexivity.
Qed.

Section Scenario.
#[local] Existing Instance Stub.answers_scenario.

(** The specification's AnalyzeContract scenario yields exactly the
    mapping the stub's reply denotes. *)
Lemma valid_json_returned_unchanged_witness :
  json_loads Stub.scenario_reply = inr Stub.scenario_mapping
  /\ first_completion
       (provider [] (AIService.analyze_contract_request "This Agreement ..."))
     = inr Stub.scenario_reply
  /\ (AIService.analyze_contract "This Agreement ..." []).1 = inr Stub.scenario_mapping.
Proof.
  assert (Hdec : json_loads Stub.scenario_reply = inr Stub.scenario_mapping)
    by (vm_compute; reflexivity).
  split; [exact Hdec | ]. split; [reflexivity | ].
  apply (valid_json_returned_unchanged [] Stub.scenario_reply Stub.scenario_mapping Hdec).
  reflexivity.
Defined.

(** C3 as stated fails for GenerateDraft: the reply is valid JSON, and the
    result is the reply's text rather than the mapping it decodes to. *)
Lemma draft_reply_is_not_decoded :
  json_loads Stub.scenario_reply = inr Stub.scenario_mapping
  /\ first_completion
       (provider [] (AIService.generate_contract_draft_request
                       "NDA" ["Acme Ltd"; "Globex Inc"] ∅))
     = inr Stub.scenario_reply
  /\ (AIService.generate_contract_draft "NDA" ["Acme Ltd"; "Globex Inc"] ∅ []).1
     = inr Stub.scenario_reply
  /\ VStr Stub.scenario_reply <> Stub.scenario_mapping.
Proof.
  split; [vm_compute; reflexivity | ].
  split; [reflexivity | ]. split; [reflexivity | ]. discriminate.
Qed.

End Scenario.

(** ** The drafting method *)

(** C4.  GenerateDraft: when the model call succeeds the completion text
    is the result, and the only interaction is the model call (the
    decoder is not invoked, nothing is logged); when it raises [e] the
    result is "Error generating contract draft: " followed by [str(e)]. *)
Theorem draft_verbatim_or_error_string `{env : Platform}
    (w : world) (ctype : string) (parties : list string) (terms : gmap string value) :
  (forall t,
      first_completion
        (provider w (AIService.generate_contract_draft_request ctype parties terms)) = inr t ->
      AIService.generate_contract_draft ctype parties terms w
      = (inr t, w ++ [EvAcreate (AIService.generate_contract_draft_request
                                   ctype parties terms)]))
  /\ (forall e,
      first_completion
        (provider w (AIService.generate_contract_draft_request ctype parties terms)) = inl e ->
      (AIService.generate_contract_draft ctype parties terms w).1
      = inr ("Error generating contract draft: " +:+ str e))
  /\ (forall text, EvJsonLoads text ∈ (AIService.generate_contract_draft ctype parties terms w).2 ->
      EvJsonLoads text ∈ w).
Proof.
  split; [ | split ].
  - intros t Hc. rewrite generate_contract_draft_run, Hc. reflexivity.
  - intros e Hc. rewrite generate_contract_draft_run, Hc. reflexivity.
  - intros text. rewrite generate_contract_draft_run.
    destruct (first_completion _); cbn; intros Hin.
    + apply elem_of_app in Hin as [Hin | Hin];
        [apply elem_of_app in Hin as [Hin | Hin]; [exact Hin | ] | ];
        apply list_elem_of_singleton in Hin; discriminate Hin.
    + apply elem_of_app in Hin as [Hin | Hin]; [exact Hin | ].
      apply list_elem_of_singleton in Hin; discriminate Hin.
Qed.

Lemma draft_verbatim_or_error_string_witness :
  first_completion
    (provider (Platform := Stub.answers_prose) []
       (AIService.generate_contract_draft_request (env := Stub.answers_prose)
          "NDA" ["Acme Ltd"; "Globex Inc"] ∅))
  = inr "I am sorry, I cannot analyze this contract."
  /\ AIService.generate_contract_draft (env := Stub.answers_prose)
       "NDA" ["Acme Ltd"; "Globex Inc"] ∅ []
     = (inr "I am sorry, I cannot analyze this contract.",
        [EvAcreate (AIService.generate_contract_draft_request (env := Stub.answers_prose)
                      "NDA" ["Acme Ltd"; "Globex Inc"] ∅)])
  /\ (AIService.generate_contract_draft (env := Stub.timing_out)
        "NDA" ["Acme Ltd"; "Globex Inc"] ∅ []).1
     = inr "Error generating contract draft: Request timed out".
Proof.
  split; [reflexivity | ]. split.
  - destruct (draft_verbatim_or_error_string (env := Stub.answers_prose)
                [] "NDA" ["Acme Ltd"; "Globex Inc"] ∅) as [Hok _].
    exact (Hok _ eq_refl).
  - destruct (draft_verbatim_or_error_string (env := Stub.timing_out)
                [] "NDA" ["Acme Ltd"; "Globex Inc"] ∅) as [_ [Herr _]].
    exact (Herr Stub.timeout_error eq_refl).
Defined.

(** ** The reply is not JSON *)

(** C5 (as amended).  For the three decoding methods, when the decoder
    rejects the reply the result is the literal of the method's handler,
    whatever the reply's text: for AnalyzeContract and AssessRisk the
    documented mappings, and for Research the mapping with summary
    "Research error occurred", three empty lists and recommendations
    ["Manual research recommended"]. *)
Theorem non_json_reply_gives_degraded_default `{env : Platform}
    (w : world) (t : string) (e : exn) :
  json_loads t = inl e ->
  (forall text,
      first_completion (provider w (AIService.analyze_contract_request text)) = inr t ->
      (AIService.analyze_contract text w).1
      = inr (VDict (dict_of
          [ ("risk_score", VInt 5)
          ; ("key_terms", VList [])
          ; ("potential_issues", VList [VStr "Analysis error occurred"])
          ; ("recommendations", VList [VStr "Manual review recommended"])
          ; ("missing_clauses", VList []) ])))
  /\ (forall description ctx,
      first_completion
        (provider w (AIService.assess_legal_risk_request description ctx)) = inr t ->
      (AIService.assess_legal_risk description ctx w).1
      = inr (VDict (dict_of
          [ ("risk_level", VStr "Medium")
          ; ("risk_score", VInt 5)
          ; ("risk_factors", VList [VStr "Assessment error occurred"])
          ; ("mitigation_strategies", VList [VStr "Manual review recommended"])
          ; ("recommended_actions", VList [VStr "Consult legal expert"]) ])))
  /\ (forall query,
      first_completion (provider w (AIService.legal_research_request query)) = inr t ->
      (AIService.legal_research query w).1
      = inr (VDict (dict_of
          [ ("summary", VStr "Research error occurred")
          ; ("key_principles", VList [])
          ; ("precedent_cases", VList [])
          ; ("practical_implications", VList [])
          ; ("recommendations", VList [VStr "Manual research recommended"]) ]))).
Proof.
  intros Hdec. repeat split.
  - intros text Hc. rewrite analyze_contract_run, Hc, Hdec. reflexivity.
  - intros description ctx Hc. rewrite assess_legal_risk_run, Hc, Hdec. reflexivity.
  - intros query Hc. rewrite legal_research_run, Hc, Hdec. reflexivity.
Qed.

Section Prose.
#[local] Existing Instance Stub.answers_prose.

Lemma non_json_reply_gives_degraded_default_witness :
  json_loads "I am sorry, I cannot analyze this contract."
  = inl (JsonRef.JSONDecodeError "Expecting value")
  /\ (AIService.analyze_contract "This Agreement ..." []).1
     = inr (VDict (dict_of
          [ ("risk_score", VInt 5)
          ; ("key_terms", VList [])
          ; ("potential_issues", VList [VStr "Analysis error occurred"])
          ; ("recommendations", VList [VStr "Manual review recommended"])
          ; ("missing_clauses", VList []) ]))
  /\ (AIService.assess_legal_risk "Late delivery" ∅ []).1
     = inr (VDict (dict_of
          [ ("risk_level", VStr "Medium")
          ; ("risk_score", VInt 5)
          ; ("risk_factors", VList [VStr "Assessment error occurred"])
          ; ("mitigation_strategies", VList [VStr "Manual review recommended"])
          ; ("recommended_actions", VList [VStr "Consult legal expert"]) ]))
  /\ (AIService.legal_research "adverse possession" []).1
     = inr (VDict (dict_of
          [ ("summary", VStr "Research error occurred")
          ; ("key_principles", VList [])
          ; ("precedent_cases", VList [])
          ; ("practical_implications", VList [])
          ; ("recommendations", VList [VStr "Manual research recommended"]) ])).
Proof.
  assert (Hdec : json_loads "I am sorry, I cannot analyze this contract."
                 = inl (JsonRef.JSONDecodeError "Expecting value"))
    by (vm_compute; reflexivity).
  destruct (non_json_reply_gives_degraded_default [] _ _ Hdec) as [Ha [Hr Hq]].
  split; [exact Hdec | ]. split; [ | split ].
  - apply Ha. reflexivity.
  - apply Hr. reflexivity.
  - apply Hq. reflexivity.
Defined.

(** C5 as stated fails for Research: the reply is prose, the decoder
    rejects it, and the result is not the table's row, whose
    recommendations are empty. *)
Lemma prose_reply_research_differs_from_table :
  first_completion (provider [] (AIService.legal_research_request "adverse possession"))
  = inr "I am sorry, I cannot analyze this contract."
  /\ json_loads "I am sorry, I cannot analyze this contract."
     = inl (JsonRef.JSONDecodeError "Expecting value")
  /\ (AIService.legal_research "adverse possession" []).1
     <> inr spec_legal_research_default.
Proof.
  split; [reflexivity | ]. split; [vm_compute; reflexivity | ]. intros Heq.
  apply (f_equal (fun r : exn + value =>
                    match r with
                    | inr (VDict m) => m !! "recommendations"
                    | _ => None
                    end)) in Heq.
  vm_compute in Heq. discriminate Heq.
Qed.

End Prose.

(** ** The temperature of the model call *)

Lemma requests_of_app (tr1 tr2 : world) :
  requests_of (tr1 ++ tr2) = requests_of tr1 ++ requests_of tr2.
Proof. apply omap_app. Qed.

Create Rewrite HintDb runs.
#[local] Hint Rewrite @analyze_contract_run @assess_legal_risk_run
  @legal_research_run @generate_contract_draft_run : runs.

(** Unfold one run, split on what the model call and the decoder did,
    and read the requests off the final trace. *)
Ltac read_requests :=
  autorewrite with runs;
  repeat match goal with
         | |- context [match ?r with inl _ => _ | inr _ => _ end] => destruct r
         end;
  cbn [snd]; rewrite !requests_of_app, ?fmap_app; cbn;
  rewrite ?app_nil_r; reflexivity.

(** C6.  Each method makes exactly one model call; its temperature is 0.1
    for AnalyzeContract, AssessRisk and Research and 0.2 for
    GenerateDraft, and the two values compare different as floats. *)
Theorem temperature_is_task_specific `{env : Platform} (w : world) :
  (forall text,
      temperature <$> requests_of (AIService.analyze_contract text w).2
      = (temperature <$> requests_of w) ++ [0.1%float])
  /\ (forall description ctx,
      temperature <$> requests_of (AIService.assess_legal_risk description ctx w).2
      = (temperature <$> requests_of w) ++ [0.1%float])
  /\ (forall query,
      temperature <$> requests_of (AIService.legal_research query w).2
      = (temperature <$> requests_of w) ++ [0.1%float])
  /\ (forall ctype parties terms,
      temperature <$> requests_of (AIService.generate_contract_draft ctype parties terms w).2
      = (temperature <$> requests_of w) ++ [0.2%float])
  /\ (forall text ctype parties terms,
      PrimFloat.eqb
        (temperature (AIService.analyze_contract_request text))
        (temperature (AIService.generate_contract_draft_request ctype parties terms))
      = false).
Proof.
  repeat split; intros; first [read_requests | vm_compute; reflexivity].
Qed.

(** ** Calls are independent *)

(** C7.  The result of a method is determined by the call's own inputs,
    the text of the model's reply to that call, and the decoder: two
    calls with the same inputs and the same reply give the same result,
    whatever happened before each of them, whatever the settings, and
    whatever the completion service answers to other calls. *)
Theorem result_depends_on_inputs_and_reply_only
    (env1 env2 : Platform) (w1 w2 : world) :
  (forall t, json_loads (Platform := env1) t = json_loads (Platform := env2) t) ->
  (forall text,
      first_completion (provider (Platform := env1) w1
                          (AIService.analyze_contract_request (env := env1) text))
      = first_completion (provider (Platform := env2) w2
                            (AIService.analyze_contract_request (env := env2) text)) ->
      (AIService.analyze_contract (env := env1) text w1).1
      = (AIService.analyze_contract (env := env2) text w2).1)
  /\ (forall ctype parties terms,
      first_completion (provider (Platform := env1) w1
                          (AIService.generate_contract_draft_request (env := env1)
                             ctype parties terms))
      = first_completion (provider (Platform := env2) w2
                            (AIService.generate_contract_draft_request (env := env2)
                               ctype parties terms)) ->
      (AIService.generate_contract_draft (env := env1) ctype parties terms w1).1
      = (AIService.generate_contract_draft (env := env2) ctype parties terms w2).1)
  /\ (forall description ctx,
      first_completion (provider (Platform := env1) w1
                          (AIService.assess_legal_risk_request (env := env1) description ctx))
      = first_completion (provider (Platform := env2) w2
                            (AIService.assess_legal_risk_request (env := env2)
                               description ctx)) ->
      (AIService.assess_legal_risk (env := env1) description ctx w1).1
      = (AIService.assess_legal_risk (env := env2) description ctx w2).1)
  /\ (forall query,
      first_completion (provider (Platform := env1) w1
                          (AIService.legal_research_request (env := env1) query))
      = first_completion (provider (Platform := env2) w2
                            (AIService.legal_research_request (env := env2) query)) ->
      (AIService.legal_research (env := env1) query w1).1
      = (AIService.legal_research (env := env2) query w2).1).
Proof.
  intros Hdec. repeat split.
  - intros text Hreply. rewrite !analyze_contract_run, Hreply. clear Hreply.
    destruct (first_completion _) as [e | t]; [reflexivity | ].
    rewrite Hdec. destruct (json_loads t); reflexivity.
  - intros ctype parties terms Hreply. rewrite !generate_contract_draft_run, Hreply. clear Hreply.
    destruct (first_completion _); reflexivity.
  - intros description ctx Hreply. rewrite !assess_legal_risk_run, Hreply. clear Hreply.
    destruct (first_completion _) as [e | t]; [reflexivity | ].
    rewrite Hdec. destruct (json_loads t); reflexivity.
  - intros query Hreply. rewrite !legal_research_run, Hreply. clear Hreply.
    destruct (first_completion _) as [e | t]; [reflexivity | ].
    rewrite Hdec. destruct (json_loads t); reflexivity.
Qed.

(** A call made after a failed call of another kind, to a service whose
    answers depend on the past, against a fresh call to a service that
    always answers: the reply is the same, and so is the result. *)
Lemma result_depends_on_inputs_and_reply_only_witness :
  Stub.after_failed_call <> []
  /\ (AIService.analyze_contract (env := Stub.recovering)
        "This Agreement ..." Stub.after_failed_call).1
     = (AIService.analyze_contract (env := Stub.answers_list) "This Agreement ..." []).1
  /\ (AIService.analyze_contract (env := Stub.answers_list) "This Agreement ..." []).1
     = inr (VList [VInt 1; VInt 2]).
Proof.
  split; [discriminate | ]. split; [ | vm_compute; reflexivity ].
  apply (result_depends_on_inputs_and_reply_only
           Stub.recovering Stub.answers_list Stub.after_failed_call []).
  - intros t. reflexivity.
  - reflexivity.
Defined.

(** ** Valid JSON that is not an object *)

(** C8.  For the three decoding methods, a reply that decodes to a value
    that is not a mapping (a number, a string, a list, ...) is returned
    as decoded: nothing is logged, and the result is not the degraded
    default. *)
Theorem non_object_json_returned_as_is `{env : Platform}
    (w : world) (t : string) (v : value) :
  json_loads t = inr v ->
  is_dict v = false ->
  (forall text,
      first_completion (provider w (AIService.analyze_contract_request text)) = inr t ->
      AIService.analyze_contract text w
      = (inr v, (w ++ [EvAcreate (AIService.analyze_contract_request text)])
                  ++ [EvJsonLoads t])
      /\ v <> AIService.analyze_contract_default)
  /\ (forall description ctx,
      first_completion
        (provider w (AIService.assess_legal_risk_request description ctx)) = inr t ->
      AIService.assess_legal_risk description ctx w
      = (inr v, (w ++ [EvAcreate (AIService.assess_legal_risk_request description ctx)])
                  ++ [EvJsonLoads t])
      /\ v <> AIService.assess_legal_risk_default)
  /\ (forall query,
      first_completion (provider w (AIService.legal_research_request query)) = inr t ->
      AIService.legal_research query w
      = (inr v, (w ++ [EvAcreate (AIService.legal_research_request query)])
                  ++ [EvJsonLoads t])
      /\ v <> AIService.legal_research_default).
Proof.
  intros Hdec Hshape.
  assert (Hne : forall m, v <> VDict m) by (intros m ->; discriminate Hshape).
  split; [ | split ].
  - intros text Hc. split; [ | apply Hne ].
    rewrite analyze_contract_run, Hc, Hdec. reflexivity.
  - intros description ctx Hc. split; [ | apply Hne ].
    rewrite assess_legal_risk_run, Hc, Hdec. reflexivity.
  - intros query Hc. split; [ | apply Hne ].
    rewrite legal_research_run, Hc, Hdec. reflexivity.
Qed.

Section BareNumber.
#[local] Existing Instance Stub.answers_seven.

Lemma non_object_json_returned_as_is_witness :
  json_loads "7" = inr (VInt 7)
  /\ is_dict (VInt 7) = false
  /\ (AIService.analyze_contract "This Agreement ..." []).1 = inr (VInt 7)
  /\ (AIService.assess_legal_risk "Late delivery" ∅ []).1 = inr (VInt 7)
  /\ (AIService.legal_research "adverse possession" []).1 = inr (VInt 7).
Proof.
  assert (Hdec : json_loads "7" = inr (VInt 7)) by (vm_compute; reflexivity).
  destruct (non_object_json_returned_as_is [] "7" (VInt 7) Hdec eq_refl)
    as [Ha [Hr Hq]].
  split; [exact Hdec | ]. split; [reflexivity | ]. split; [ | split ].
  - destruct (Ha "This Agreement ..." eq_refl) as [-> _]. reflexivity.
  - destruct (Hr "Late delivery" ∅ eq_refl) as [-> _]. reflexivity.
  - destruct (Hq "adverse possession" eq_refl) as [-> _]. reflexivity.
Defined.

End BareNumber.

(** ** The analyze-contract route *)

Lemma analyze_contract_route_run `{env : Platform}
    (request : ContractAnalysisRequest) (w w' : world) (m : gmap string value) :
  AIService.analyze_contract (contract_text request) w = (inr (VDict m), w') ->
  analyze_contract request w
  = match ContractAnalysisResponse_init
            (default (VInt 5) (m !! "risk_score"))
            (default (VList []) (m !! "key_terms"))
            (default (VList []) (m !! "potential_issues"))
            (default (VList []) (m !! "recommendations"))
            (default (VList []) (m !! "missing_clauses"))
          return (HTTPException + ContractAnalysisResponse) * world with
    | inr response => (inr response, w')
    | inl e =>
        (inl (mkHTTPException 500 "Contract analysis failed"),
         w' ++ [EvLoggerError ("Contract analysis error: " +:+ str e)])
    end.
Proof.
  intros Hrun. unfold analyze_contract, try_except, bind, lift. rewrite Hrun. cbn.
  destruct (ContractAnalysisResponse_init _ _ _ _ _); reflexivity.
Qed.

(** C9 (as amended).  When the method's result is a mapping, each of the
    five arguments of the response model is the mapping's value at that
    key when the key is present, and the per-field default (5 for
    risk_score, the empty list for the others) when it is missing; when
    the response model accepts the five arguments, the response is the
    record of the five accepted values. *)
Theorem analyze_contract_route_fills_missing_fields `{env : Platform}
    (request : ContractAnalysisRequest) (w w' : world) (m : gmap string value)
    (rs : Z) (kt pi rc mc : list string) :
  AIService.analyze_contract (contract_text request) w = (inr (VDict m), w') ->
  validate_int (default (VInt 5) (m !! "risk_score")) = Some rs ->
  validate_list_str (default (VList []) (m !! "key_terms")) = Some kt ->
  validate_list_str (default (VList []) (m !! "potential_issues")) = Some pi ->
  validate_list_str (default (VList []) (m !! "recommendations")) = Some rc ->
  validate_list_str (default (VList []) (m !! "missing_clauses")) = Some mc ->
  analyze_contract request w = (inr (mkContractAnalysisResponse rs kt pi rc mc), w').
Proof.
  intros Hrun Hrs Hkt Hpi Hrc Hmc.
  rewrite (analyze_contract_route_run request w w' m Hrun).
  unfold ContractAnalysisResponse_init. rewrite Hrs, Hkt, Hpi, Hrc, Hmc. reflexivity.
Qed.

(** The model's object has a score and nothing else: the four lists of
    the response are the defaults. *)
Lemma analyze_contract_route_fills_missing_fields_witness :
  (AIService.analyze_contract (env := Stub.answers_score_only) "This Agreement ..." []).1
  = inr (VDict (dict_of [("risk_score", VInt 8)]))
  /\ (analyze_contract (env := Stub.answers_score_only)
        (mkContractAnalysisRequest "This Agreement ..." None) []).1
     = inr (mkContractAnalysisResponse 8 [] [] [] []).
Proof.
  split; [vm_compute; reflexivity | ].
  rewrite (analyze_contract_route_fills_missing_fields (env := Stub.answers_score_only)
             (mkContractAnalysisRequest "This Agreement ..." None) []
             (AIService.analyze_contract (env := Stub.answers_score_only)
                "This Agreement ..." []).2
             (dict_of [("risk_score", VInt 8)]) 8 [] [] [] []);
    [reflexivity | vm_compute; reflexivity ..].
Defined.

(** C9 as stated fails: the method's result is a mapping, its risk_score
    is null, the response model rejects it and the route answers with
    status 500, not with the five fields. *)
Lemma null_score_mapping_gives_http_500 :
  (exists m,
      (AIService.analyze_contract (env := Stub.answers_null_score) "This Agreement ..." []).1
      = inr (VDict m))
  /\ (analyze_contract (env := Stub.answers_null_score)
        (mkContractAnalysisRequest "This Agreement ..." None) []).1
     = inl (mkHTTPException 500 "Contract analysis failed").
Proof. split; [eexists | ]; vm_compute; reflexivity. Qed.

(** ** The assess-risk route *)

Lemma falsy_dict_is_empty (d : gmap string value) : dict_truthy d = false -> d = ∅.
Proof.
  unfold dict_truthy. intros Hfalsy. apply map_size_empty_inv.
  destruct (size d); [reflexivity | discriminate Hfalsy].
Qed.

Lemma assess_risk_run `{env : Platform}
    (description : string) (c : option (gmap string value)) (w : world) :
  assess_risk description c w
  = match AIService.assess_legal_risk description (or_empty_dict c) w
          return (HTTPException + value) * world with
    | (inr risk_assessment, w') =>
        (inr (VDict (dict_of
                [ ("risk_assessment", risk_assessment)
                ; ("assessed_at", VStr (utcnow_isoformat w')) ])), w')
    | (inl e, w') =>
        (inl (mkHTTPException 500 "Risk assessment failed"),
         w' ++ [EvLoggerError ("Risk assessment error: " +:+ str e)])
    end.
Proof.
  unfold assess_risk, try_except, bind, now, ret, raise, logger_error, emit.
  destruct (AIService.assess_legal_risk _ _ w) as [[e | v] w']; reflexivity.
Qed.

(** C10.  The route hands the method the empty mapping when the context
    is omitted, null or an empty mapping, so these calls run alike: same
    request to the model, same result, same trace. *)
Theorem assess_risk_falsy_context_is_empty `{env : Platform}
    (description : string) (w : world) :
  assess_risk description None w = assess_risk description (Some ∅) w
  /\ (forall d, dict_truthy d = false ->
      assess_risk description (Some d) w = assess_risk description None w)
  /\ requests_of (assess_risk description None w).2
     = requests_of w ++ [AIService.assess_legal_risk_request description ∅].
Proof.
  split; [reflexivity | split].
  - intros d Hfalsy. rewrite (falsy_dict_is_empty d Hfalsy). reflexivity.
  - rewrite assess_risk_run. cbn [or_empty_dict]. read_requests.
Qed.

Section RiskScenario.
#[local] Existing Instance Stub.answers_scenario.

Lemma assess_risk_falsy_context_is_empty_witness :
  dict_truthy (∅ : gmap string value) = false
  /\ assess_risk "Late delivery" (Some ∅) [] = assess_risk "Late delivery" None []
  /\ (assess_risk "Late delivery" None []).1
     = inr (VDict (dict_of
         [ ("risk_assessment", Stub.scenario_mapping)
         ; ("assessed_at", VStr "2024-01-01T00:00:00") ])).
Proof.
  split; [reflexivity | ]. split; [ | vm_compute; reflexivity ].
  destruct (assess_risk_falsy_context_is_empty "Late delivery" []) as [_ [Hfalsy _]].
  apply Hfalsy. reflexivity.
Defined.

End RiskScenario.

(** * Further properties of the service and its routes *)

(** ** Degraded results *)

Lemma analyze_contract_degraded `{env : Platform} (text : string) (w : world) :
  degraded w (AIService.analyze_contract_request text) ->
  (AIService.analyze_contract text w).1 = inr AIService.analyze_contract_default.
Proof.
  unfold degraded. rewrite analyze_contract_run.
  destruct (first_completion _) as [e | t]; [reflexivity | ].
  destruct (json_loads t); [reflexivity | contradiction].
Qed.

Lemma legal_research_degraded `{env : Platform} (query : string) (w : world) :
  degraded w (AIService.legal_research_request query) ->
  (AIService.legal_research query w).1 = inr AIService.legal_research_default.
Proof.
  unfold degraded. rewrite legal_research_run.
  destruct (first_completion _) as [e | t]; [reflexivity | ].
  destruct (json_loads t); [reflexivity | contradiction].
Qed.

Lemma strict_list_str_accepts (l : list string) :
  Stub.strict_list_str (VList (VStr <$> l)) = Some l.
Proof.
  unfold Stub.strict_list_str. induction l as [ | s l IH]; [reflexivity | ].
  cbn. cbn in IH. rewrite IH. reflexivity.
Qed.

Lemma stub_accepts_own_types (p : world -> chat_request -> exn + chat_response) :
  accepts_own_types (env := Stub.platform p).
Proof. split; [reflexivity | apply strict_list_str_accepts]. Qed.

Lemma errors_logged_app (tr1 tr2 : world) :
  errors_logged (tr1 ++ tr2) = errors_logged tr1 ++ errors_logged tr2.
Proof. apply omap_app. Qed.

(** X1.  When the model call raises or its reply does not decode, the
    analyze-contract route still answers normally, with the degraded
    default as response: score 5, no key terms, one issue, one
    recommendation, no missing clauses. *)
Theorem analyze_contract_route_degraded `{env : Platform}
    (request : ContractAnalysisRequest) (w : world) :
  accepts_own_types ->
  degraded w (AIService.analyze_contract_request (contract_text request)) ->
  (analyze_contract request w).1
  = inr (mkContractAnalysisResponse 5 [] ["Analysis error occurred"]
           ["Manual review recommended"] []).
Proof.
  intros [Hint Hlist] Hdeg.
  pose proof (analyze_contract_degraded _ _ Hdeg) as Hrun.
  destruct (AIService.analyze_contract (contract_text request) w) as [r w'] eqn:Hgw.
  cbn in Hrun. subst r.
  rewrite (analyze_contract_route_run request w w' _ Hgw).
  unfold ContractAnalysisResponse_init.
  change (dict_of _ !! "risk_score") with (Some (VInt 5)).
  change (dict_of _ !! "key_terms") with (Some (VList (VStr <$> []))).
  change (dict_of _ !! "potential_issues")
    with (Some (VList (VStr <$> ["Analysis error occurred"]))).
  change (dict_of _ !! "recommendations")
    with (Some (VList (VStr <$> ["Manual review recommended"]))).
  change (dict_of _ !! "missing_clauses") with (Some (VList (VStr <$> []))).
  cbn [from_option id]. rewrite Hint, !Hlist. reflexivity.
Qed.

Lemma analyze_contract_route_degraded_witness :
  (analyze_contract (env := Stub.timing_out)
     (mkContractAnalysisRequest "This Agreement ..." None) []).1
  = inr (mkContractAnalysisResponse 5 [] ["Analysis error occurred"]
           ["Manual review recommended"] [])
  /\ (analyze_contract (env := Stub.answers_prose)
        (mkContractAnalysisRequest "This Agreement ..." None) []).1
     = inr (mkContractAnalysisResponse 5 [] ["Analysis error occurred"]
              ["Manual review recommended"] []).
Proof.
  split.
  - apply (analyze_contract_route_degraded (env := Stub.timing_out));
      [apply stub_accepts_own_types | exact I].
  - apply (analyze_contract_route_degraded (env := Stub.answers_prose));
      [apply stub_accepts_own_types | vm_compute; exact I].
Defined.

(** ** Replies that are not mappings *)

Lemma py_get_not_dict (v : value) (key : string) (d : value) :
  is_dict v = false ->
  py_get v key d
  = inl (Exception "AttributeError"
           ("'" +:+ type_name v +:+ "' object has no attribute 'get'")).
Proof. destruct v; intros Hshape; try reflexivity. discriminate Hshape. Qed.

(** X2.  When the reply decodes to a value that is not a mapping, the
    analyze-contract and chat routes answer with status 500 and their
    fixed detail; the attribute error, which names the value's type, goes
    to the log and not to the caller. *)
Theorem non_mapping_reply_gives_http_500 `{env : Platform} `{sf : StrField}
    (w : world) (t : string) (v : value) :
  json_loads t = inr v ->
  is_dict v = false ->
  (forall request,
      first_completion
        (provider w (AIService.analyze_contract_request (contract_text request))) = inr t ->
      analyze_contract request w
      = (inl (mkHTTPException 500 "Contract analysis failed"),
         ((w ++ [EvAcreate (AIService.analyze_contract_request (contract_text request))])
            ++ [EvJsonLoads t])
           ++ [EvLoggerError
                 ("Contract analysis error: '" +:+ type_name v
                  +:+ "' object has no attribute 'get'")]))
  /\ (forall request,
      first_completion
        (provider w (AIService.legal_research_request
                       (AIAssistantRequest.message request))) = inr t ->
      ai_chat request w
      = (inl (mkHTTPException 500 "AI service error"),
         ((w ++ [EvAcreate (AIService.legal_research_request
                              (AIAssistantRequest.message request))])
            ++ [EvJsonLoads t])
           ++ [EvLoggerError
                 ("AI chat error: '" +:+ type_name v
                  +:+ "' object has no attribute 'get'")])).
Proof.
  intros Hdec Hshape. split; intros request Hc.
  - unfold analyze_contract, try_except, bind, lift.
    rewrite analyze_contract_run, Hc, Hdec, (py_get_not_dict v _ _ Hshape).
    reflexivity.
  - unfold ai_chat, try_except, bind, lift.
    rewrite legal_research_run, Hc, Hdec, (py_get_not_dict v _ _ Hshape).
    reflexivity.
Qed.

Lemma non_mapping_reply_gives_http_500_witness :
  (analyze_contract (env := Stub.answers_list)
     (mkContractAnalysisRequest "This Agreement ..." None) []).1
  = inl (mkHTTPException 500 "Contract analysis failed")
  /\ errors_logged
       (ai_chat (env := Stub.answers_list) (sf := Fixture.strict)
          (AIAssistantRequest.make "What is estoppel?" None) []).2
     = ["AI chat error: 'list' object has no attribute 'get'"].
Proof.
  destruct (non_mapping_reply_gives_http_500 (env := Stub.answers_list)
              (sf := Fixture.strict) [] "[1, 2]" (VList [VInt 1; VInt 2]))
    as [Ha Hc]; [vm_compute; reflexivity | reflexivity | ].
  split.
  - rewrite (Ha (mkContractAnalysisRequest "This Agreement ..." None) eq_refl).
    reflexivity.
  - rewrite (Hc (AIAssistantRequest.make "What is estoppel?" None) eq_refl).
    reflexivity.
Defined.

(** ** What the analyze-contract route reads of a mapping *)

(** X3.  The analyze-contract route reads the five schema keys and
    nothing else: two mappings that agree on them give the same answer,
    whatever else they hold. *)
Theorem analyze_contract_route_ignores_other_keys `{env : Platform}
    (request : ContractAnalysisRequest) (w1 w1' w2 w2' : world)
    (m1 m2 : gmap string value) :
  AIService.analyze_contract (contract_text request) w1 = (inr (VDict m1), w1') ->
  AIService.analyze_contract (contract_text request) w2 = (inr (VDict m2), w2') ->
  (forall key,
      key ∈ ["risk_score"; "key_terms"; "potential_issues"; "recommendations";
             "missing_clauses"] ->
      m1 !! key = m2 !! key) ->
  (analyze_contract request w1).1 = (analyze_contract request w2).1.
Proof.
  intros Hrun1 Hrun2 Hagree.
  rewrite (analyze_contract_route_run request w1 w1' m1 Hrun1).
  rewrite (analyze_contract_route_run request w2 w2' m2 Hrun2).
  rewrite !(Hagree _) by (repeat constructor).
  destruct (ContractAnalysisResponse_init _ _ _ _ _); reflexivity.
Qed.

Lemma analyze_contract_route_ignores_other_keys_witness :
  (AIService.analyze_contract (env := Fixture.extra_field_first)
     "This Agreement ..." []).1
  <> (AIService.analyze_contract (env := Fixture.extra_field_first)
        "This Agreement ..." [EvLoggerError "earlier"]).1
  /\ (analyze_contract (env := Fixture.extra_field_first)
        (mkContractAnalysisRequest "This Agreement ..." None) []).1
     = (analyze_contract (env := Fixture.extra_field_first)
          (mkContractAnalysisRequest "This Agreement ..." None)
          [EvLoggerError "earlier"]).1.
Proof.
  split.
  - intros Heq.
    apply (f_equal (fun r : exn + value =>
                      match r with
                      | inr (VDict m) => m !! "confidence"
                      | _ => None
                      end)) in Heq.
    vm_compute in Heq. discriminate Heq.
  - eapply (analyze_contract_route_ignores_other_keys (env := Fixture.extra_field_first)
              (mkContractAnalysisRequest "This Agreement ..." None)
              [] _ [EvLoggerError "earlier"] _).
    + vm_compute. reflexivity.
    + vm_compute. reflexivity.
    + intros key Hkey.
      repeat (apply elem_of_cons in Hkey as [-> | Hkey]; [vm_compute; reflexivity | ]).
      apply elem_of_nil in Hkey. destruct Hkey.
Defined.

(** ** The chat route *)

Lemma ai_chat_run `{env : Platform} `{sf : StrField}
    (request : AIAssistantRequest.t) (w w' : world) (m : gmap string value) :
  AIService.legal_research (AIAssistantRequest.message request) w = (inr (VDict m), w') ->
  ai_chat request w
  = match AIAssistantResponse_init
            (default (VStr "I'm here to help with legal questions.") (m !! "summary"))
            0.85
            (default (VList []) (m !! "recommendations"))
          return (HTTPException + AIAssistantResponse.t) * world with
    | inr answer => (inr answer, w')
    | inl e =>
        (inl (mkHTTPException 500 "AI service error"),
         w' ++ [EvLoggerError ("AI chat error: " +:+ str e)])
    end.
Proof.
  intros Hrun. unfold ai_chat, try_except, bind, lift. rewrite Hrun. cbn.
  destruct (AIAssistantResponse_init _ _ _); reflexivity.
Qed.

(** X4.  When the model call raises or its reply does not decode, the
    chat route still answers normally: the answer's text is "Research
    error occurred" and its one suggestion "Manual research recommended". *)
Theorem ai_chat_degraded `{env : Platform} `{sf : StrField}
    (request : AIAssistantRequest.t) (w : world) :
  accepts_own_types ->
  accepts_str ->
  degraded w (AIService.legal_research_request (AIAssistantRequest.message request)) ->
  (ai_chat request w).1
  = inr (AIAssistantResponse.make "Research error occurred" 0.85
           ["Manual research recommended"]).
Proof.
  intros [_ Hlist] Hstr Hdeg.
  pose proof (legal_research_degraded _ _ Hdeg) as Hrun.
  destruct (AIService.legal_research (AIAssistantRequest.message request) w)
    as [r w'] eqn:Hgw.
  cbn in Hrun. subst r.
  rewrite (ai_chat_run request w w' _ Hgw). unfold AIAssistantResponse_init.
  change (dict_of _ !! "summary") with (Some (VStr "Research error occurred")).
  change (dict_of _ !! "recommendations")
    with (Some (VList (VStr <$> ["Manual research recommended"]))).
  cbn [from_option id]. rewrite Hstr, Hlist. reflexivity.
Qed.

Lemma ai_chat_degraded_witness :
  (ai_chat (env := Stub.timing_out) (sf := Fixture.strict)
     (AIAssistantRequest.make "What is estoppel?" None) []).1
  = inr (AIAssistantResponse.make "Research error occurred" 0.85
           ["Manual research recommended"]).
Proof.
  apply (ai_chat_degraded (env := Stub.timing_out) (sf := Fixture.strict)).
  - apply stub_accepts_own_types.
  - intros s. reflexivity.
  - exact I.
Defined.

(** X5.  When the reply is a mapping without a summary, the chat route
    answers with its greeting, and with the mapping's recommendations
    (none when that key is missing too) as suggestions.  Whatever the
    model says, the confidence of an answer is 0.85. *)
Theorem ai_chat_greets_without_summary `{env : Platform} `{sf : StrField}
    (request : AIAssistantRequest.t) (w : world) :
  (forall w' m suggested,
      accepts_str ->
      AIService.legal_research (AIAssistantRequest.message request) w
      = (inr (VDict m), w') ->
      m !! "summary" = None ->
      validate_list_str (default (VList []) (m !! "recommendations")) = Some suggested ->
      ai_chat request w
      = (inr (AIAssistantResponse.make "I'm here to help with legal questions."
                0.85 suggested), w'))
  /\ (forall answer,
      (ai_chat request w).1 = inr answer ->
      AIAssistantResponse.confidence answer = 0.85%float).
Proof.
  split.
  - intros w' m suggested Hstr Hrun Hnone Hsugg.
    rewrite (ai_chat_run request w w' m Hrun). unfold AIAssistantResponse_init.
    rewrite Hnone. cbn [from_option id]. rewrite Hstr, Hsugg. reflexivity.
  - intros answer. unfold ai_chat, try_except, bind, lift.
    destruct (AIService.legal_research _ w) as [[e | v] w']; [discriminate | ].
    destruct v; cbn; try discriminate.
    unfold AIAssistantResponse_init.
    destruct (validate_str _); [ | discriminate].
    destruct (validate_list_str _); [ | discriminate].
    cbn. intros [= <-]. reflexivity.
Qed.

Lemma ai_chat_greets_without_summary_witness :
  (ai_chat (env := Fixture.answers_principles_only) (sf := Fixture.strict)
     (AIAssistantRequest.make "What is estoppel?" None) []).1
  = inr (AIAssistantResponse.make "I'm here to help with legal questions." 0.85 [])
  /\ AIAssistantResponse.confidence
       (AIAssistantResponse.make "I'm here to help with legal questions." 0.85 [])
     = 0.85%float.
Proof.
  destruct (ai_chat_greets_without_summary (env := Fixture.answers_principles_only)
              (sf := Fixture.strict)
              (AIAssistantRequest.make "What is estoppel?" None) []) as [Hgreet Hconf].
  assert (Hrun :
    (ai_chat (env := Fixture.answers_principles_only) (sf := Fixture.strict)
       (AIAssistantRequest.make "What is estoppel?" None) []).1
    = inr (AIAssistantResponse.make "I'm here to help with legal questions." 0.85 [])).
  { erewrite Hgreet; [reflexivity | intros s; reflexivity | vm_compute; reflexivity
                     | vm_compute; reflexivity | vm_compute; reflexivity]. }
  split; [exact Hrun | exact (Hconf _ Hrun)].
Defined.

(** ** Routes that never answer with an error *)

(** X6.  The assess-risk route never raises: whatever the model call
    does, it returns a mapping holding the method's result, passed on as
    it is, and the time read once the method has returned. *)
Theorem assess_risk_never_raises `{env : Platform}
    (description : string) (c : option (gmap string value)) (w : world) :
  exists risk_assessment w',
    AIService.assess_legal_risk description (or_empty_dict c) w = (inr risk_assessment, w')
    /\ assess_risk description c w
       = (inr (VDict (dict_of
                 [ ("risk_assessment", risk_assessment)
                 ; ("assessed_at", VStr (utcnow_isoformat w')) ])), w').
Proof.
  rewrite assess_risk_run, assess_legal_risk_run.
  destruct (first_completion _) as [e | t]; [eauto | ].
  destruct (json_loads t); eauto.
Qed.

(** X7.  The generate-contract route never raises: it returns a mapping
    with the draft, the contract type and the parties as given, and the
    time.  When the model call raises, the draft is the text "Error
    generating contract draft: " followed by the error's text. *)
Theorem generate_contract_never_raises `{env : Platform}
    (ctype : string) (parties : list string) (terms : gmap string value) (w : world) :
  (exists draft w',
      AIService.generate_contract_draft ctype parties terms w = (inr draft, w')
      /\ generate_contract ctype parties terms w
         = (inr (VDict (dict_of
                   [ ("contract_draft", VStr draft)
                   ; ("contract_type", VStr ctype)
                   ; ("parties", VList (VStr <$> parties))
                   ; ("generated_at", VStr (utcnow_isoformat w')) ])), w'))
  /\ (forall e,
      first_completion
        (provider w (AIService.generate_contract_draft_request ctype parties terms)) = inl e ->
      exists generated_at,
        (generate_contract ctype parties terms w).1
        = inr (VDict (dict_of
                 [ ("contract_draft", VStr ("Error generating contract draft: " +:+ str e))
                 ; ("contract_type", VStr ctype)
                 ; ("parties", VList (VStr <$> parties))
                 ; ("generated_at", VStr generated_at) ]))).
Proof.
  unfold generate_contract, try_except, bind, now, ret.
  rewrite generate_contract_draft_run. split.
  - destruct (first_completion _); eauto.
  - intros e ->. eauto.
Qed.

Lemma generate_contract_never_raises_witness :
  first_completion
    (provider (Platform := Stub.timing_out) []
       (AIService.generate_contract_draft_request (env := Stub.timing_out)
          "NDA" ["Acme Ltd"; "Globex Inc"] ∅))
  = inl Stub.timeout_error
  /\ exists generated_at,
       (generate_contract (env := Stub.timing_out)
          "NDA" ["Acme Ltd"; "Globex Inc"] ∅ []).1
       = inr (VDict (dict_of
                [ ("contract_draft",
                   VStr "Error generating contract draft: Request timed out")
                ; ("contract_type", VStr "NDA")
                ; ("parties", VList [VStr "Acme Ltd"; VStr "Globex Inc"])
                ; ("generated_at", VStr generated_at) ])).
Proof.
  split; [reflexivity | ].
  exact (proj2 (generate_contract_never_raises (env := Stub.timing_out)
                  "NDA" ["Acme Ltd"; "Globex Inc"] ∅ [])
               Stub.timeout_error eq_refl).
Defined.

(** ** What reaches the log *)

(** X8.  A call of a method leaves exactly one error record when its
    result is the degraded one (the model call raised, or the reply did
    not decode), carrying the method's label and the error's text, and
    leaves none otherwise. *)
Theorem one_error_record_per_degraded_call `{env : Platform} (w : world) :
  (forall text,
      errors_logged (AIService.analyze_contract text w).2
      = errors_logged w ++
        match first_completion (provider w (AIService.analyze_contract_request text)) with
        | inl e => ["Error analyzing contract: " +:+ str e]
        | inr t =>
            match json_loads t with
            | inl e => ["Error analyzing contract: " +:+ str e]
            | inr _ => []
            end
        end)
  /\ (forall ctype parties terms,
      errors_logged (AIService.generate_contract_draft ctype parties terms w).2
      = errors_logged w ++
        match first_completion
                (provider w (AIService.generate_contract_draft_request
                               ctype parties terms)) with
        | inl e => ["Error generating contract: " +:+ str e]
        | inr _ => []
        end)
  /\ (forall description ctx,
      errors_logged (AIService.assess_legal_risk description ctx w).2
      = errors_logged w ++
        match first_completion
                (provider w (AIService.assess_legal_risk_request description ctx)) with
        | inl e => ["Error assessing risk: " +:+ str e]
        | inr t =>
            match json_loads t with
            | inl e => ["Error assessing risk: " +:+ str e]
            | inr _ => []
            end
        end)
  /\ (forall query,
      errors_logged (AIService.legal_research query w).2
      = errors_logged w ++
        match first_completion (provider w (AIService.legal_research_request query)) with
        | inl e => ["Error in legal research: " +:+ str e]
        | inr t =>
            match json_loads t with
            | inl e => ["Error in legal research: " +:+ str e]
            | inr _ => []
            end
        end).
Proof.
  repeat split; intros; autorewrite with runs;
    repeat match goal with
           | |- context [match ?r with inl _ => _ | inr _ => _ end] => destruct r
           end;
    cbn [snd]; rewrite !errors_logged_app; cbn; rewrite ?app_nil_r; reflexivity.
Qed.

(** ** The context of a risk assessment *)



(** ** Prompts keep texts apart *)

Lemma string_length_app (s t : string) :
  String.length (s +:+ t) = String.length s + String.length t.
Proof.
  induction s as [ | a s IH]; [reflexivity | ].
  change (S (String.length (s +:+ t)) = S (String.length s + String.length t)).
  f_equal. exact IH.
Qed.

Lemma string_app_inj_r (s1 s2 t : string) : s1 +:+ t = s2 +:+ t -> s1 = s2.
Proof.
  intros Heq.
  assert (Hlen : String.length s1 = String.length s2).
  { apply (f_equal String.length) in Heq. rewrite !string_length_app in Heq. lia. }
  revert s2 Heq Hlen.
  induction s1 as [ | a s1 IH]; intros [ | b s2] Heq Hlen;
    try discriminate Hlen; [reflexivity | ].
  change (String a (s1 +:+ t) = String b (s2 +:+ t)) in Heq.
  injection Heq as -> Heq. injection Hlen as Hlen. f_equal. exact (IH s2 Heq Hlen).
Qed.

(** X10.  The prompts of AnalyzeContract and Research are the text
    between a fixed opening and a fixed closing, so two different texts
    never give the same prompt, nor the same request. *)
Theorem prompts_keep_texts_apart `{env : Platform} (text1 text2 : string) :
  text1 <> text2 ->
  AIService.analyze_contract_request text1 <> AIService.analyze_contract_request text2
  /\ AIService.legal_research_request text1 <> AIService.legal_research_request text2.
Proof.
  intros Hne. split; intros Hreq; apply Hne.
  - assert (Hprompt : AIService.analyze_contract_prompt text1
                      = AIService.analyze_contract_prompt text2)
      by exact (f_equal user_prompt Hreq).
    lazy in Hprompt. repeat injection Hprompt as Hprompt.
    exact (string_app_inj_r _ _ _ Hprompt).
  - assert (Hprompt : AIService.legal_research_prompt text1
                      = AIService.legal_research_prompt text2)
      by exact (f_equal user_prompt Hreq).
    lazy in Hprompt. repeat injection Hprompt as Hprompt.
    exact (string_app_inj_r _ _ _ Hprompt).
Qed.

Lemma prompts_keep_texts_apart_witness :
  AIService.analyze_contract_request (env := Stub.timing_out) "Clause A"
  <> AIService.analyze_contract_request (env := Stub.timing_out) "Clause B"
  /\ AIService.legal_research_request (env := Stub.timing_out) "Clause A"
     <> AIService.legal_research_request (env := Stub.timing_out) "Clause B".
Proof.
  apply (prompts_keep_texts_apart (env := Stub.timing_out) "Clause A" "Clause B").
  discriminate.
Defined.

(** * Tokens and login *)

Section TokenRuns.
Context `{rt : Runtime}.

(** One reading of the clock, then the encoder; the lifetime is the given
    one unless it is omitted or zero. *)
Lemma create_access_token_run
    (data : gmap string value) (expires_delta : option timedelta) (s : sys) :
  create_access_token data expires_delta s
  = match datetime_add (utcnow s)
            match expires_delta with
            | Some d => if (d =? 0)%Z then (15 * 60000000)%Z else d
            | None => (15 * 60000000)%Z
            end
          return (exn + string) * sys with
    | inl e => (inl e, sys_emit s SysUtcnow)
    | inr expire =>
        (jwt_encode (<["exp" := ClaimDatetime expire]> (Claim <$> data))
           (SECRET_KEY more_settings) "HS256",
         sys_emit s SysUtcnow)
    end.
Proof.
  unfold create_access_token, timedelta_truthy, io_bind, io_lift, io_ret, read_clock.
  destruct expires_delta as [d | ]; [destruct (d =? 0)%Z | ]; cbn;
    destruct (datetime_add (utcnow s) _); try reflexivity;
    destruct (jwt_encode _ _ _); reflexivity.
Qed.

Lemma datetime_add_inr (t : datetime) (d : timedelta) (t' : datetime) :
  datetime_add t d = inr t' -> t' = (t + d)%Z /\ (0 <= t + d <= datetime_max)%Z.
Proof.
  unfold datetime_add.
  destruct ((0 <=? t + d)%Z && (t + d <=? datetime_max)%Z) eqn:Hrange; [ | discriminate].
  intros [= <-]. apply andb_true_iff in Hrange as [Hlo Hhi]. lia.
Qed.

Lemma timedelta_of_inr (d m : Z) (us : timedelta) :
  timedelta_of d m = inr us -> us = (d * microseconds_per_day + m * 60000000)%Z.
Proof.
  unfold timedelta_of. destruct (_ && _); [ | discriminate]. intros [= <-]. reflexivity.
Qed.

Lemma token_claims_lookup (data : gmap string value) (t : datetime) (key : string) :
  key <> "exp" ->
  (<["exp" := ClaimDatetime t]> (Claim <$> data) : gmap string claim) !! key
  = Claim <$> data !! key.
Proof. intros Hne. rewrite lookup_insert_ne by congruence. apply lookup_fmap. Qed.

End TokenRuns.

(** X11.  A token asked for with a lifetime of zero is built exactly
    like one asked for without a lifetime: it expires fifteen minutes
    after the clock reading, not at once. *)
Theorem zero_lifetime_means_fifteen_minutes `{rt : Runtime}
    (data : gmap string value) (s : sys) :
  create_access_token data (Some 0%Z) s = create_access_token data None s
  /\ (forall token s',
      create_access_token data (Some 0%Z) s = (inr token, s') ->
      exists claims : gmap string claim,
        jwt_encode claims (SECRET_KEY more_settings) "HS256" = inr token
        /\ claims !! "exp" = Some (ClaimDatetime (utcnow s + 900000000)%Z)).
Proof.
  split; [rewrite !create_access_token_run; reflexivity | ].
  intros token s'. rewrite create_access_token_run. cbn [Z.eqb].
  destruct (datetime_add _ _) as [e | expire] eqn:Hadd; [discriminate | ].
  apply datetime_add_inr in Hadd as [-> _]. intros [= Henc _].
  eexists. split; [exact Henc | ]. apply lookup_insert_eq.
Qed.

Lemma zero_lifetime_means_fifteen_minutes_witness :
  create_access_token (rt := Machine.healthy)
    (dict_of [("sub", VStr "ana@example.com")]) (Some 0%Z) Machine.boot
  = (inr "your-secret-key-change-in-production|HS256|a:ana@example.com",
     mkSys [] [SysUtcnow])
  /\ exists claims : gmap string claim,
       Machine.encode claims "your-secret-key-change-in-production" "HS256"
       = inr "your-secret-key-change-in-production|HS256|a:ana@example.com"
       /\ claims !! "exp"
          = Some (ClaimDatetime (Machine.clock Machine.boot + 900000000)%Z).
Proof.
  assert (Hrun :
    create_access_token (rt := Machine.healthy)
      (dict_of [("sub", VStr "ana@example.com")]) (Some 0%Z) Machine.boot
    = (inr "your-secret-key-change-in-production|HS256|a:ana@example.com",
       mkSys [] [SysUtcnow])) by (vm_compute; reflexivity).
  split; [exact Hrun | ].
  exact (proj2 (zero_lifetime_means_fifteen_minutes (rt := Machine.healthy) _ _) _ _ Hrun).
Defined.

(** X12.  A token asked for with a lifetime other than zero carries, as
    its "exp" claim, the clock reading plus that lifetime, whatever "exp"
    the caller's data held; every other claim is the caller's. *)
Theorem create_access_token_sets_exp `{rt : Runtime}
    (data : gmap string value) (d : timedelta) (s s' : sys) (token : string) :
  d <> 0%Z ->
  create_access_token data (Some d) s = (inr token, s') ->
  exists claims : gmap string claim,
    jwt_encode claims (SECRET_KEY more_settings) "HS256" = inr token
    /\ claims !! "exp" = Some (ClaimDatetime (utcnow s + d)%Z)
    /\ (forall key, key <> "exp" -> claims !! key = Claim <$> data !! key)
    /\ s' = sys_emit s SysUtcnow.
Proof.
  intros Hd. rewrite create_access_token_run.
  destruct (d =? 0)%Z eqn:Hzero; [apply Z.eqb_eq in Hzero; contradiction | ].
  destruct (datetime_add _ _) as [e | expire] eqn:Hadd; [discriminate | ].
  apply datetime_add_inr in Hadd as [-> _]. intros [= Henc <-].
  eexists. split; [exact Henc | ]. split; [apply lookup_insert_eq | ].
  split; [ | reflexivity]. intros key Hkey. apply token_claims_lookup, Hkey.
Qed.

Lemma create_access_token_sets_exp_witness :
  exists claims : gmap string claim,
    Machine.encode claims "your-secret-key-change-in-production" "HS256"
    = inr "your-secret-key-change-in-production|HS256|a:ana@example.com"
    /\ claims !! "exp" = Some (ClaimDatetime (Machine.clock Machine.boot + 60000000)%Z)
    /\ (forall key, key <> "exp" ->
        claims !! key
        = Claim <$> dict_of [("sub", VStr "ana@example.com"); ("exp", VInt 0)] !! key)
    /\ mkSys [] [SysUtcnow] = sys_emit Machine.boot SysUtcnow.
Proof.
  apply (create_access_token_sets_exp (rt := Machine.healthy)
           (dict_of [("sub", VStr "ana@example.com"); ("exp", VInt 0)])
           60000000%Z Machine.boot).
  - discriminate.
  - vm_compute. reflexivity.
Defined.

Section LoginRuns.
Context `{rt : Runtime}.

(** What a successful login has done: two tokens, each with its own
    reading of the clock. *)
Lemma login_user_success (login_data : LoginRequest) (s s' : sys) (resp : TokenResponse) :
  login_user login_data s = (inr resp, s') ->
  jwt_encode
    (<["exp" := ClaimDatetime
         (utcnow s +
          (if (ACCESS_TOKEN_EXPIRE_MINUTES more_settings =? 0)%Z
           then 900000000
           else ACCESS_TOKEN_EXPIRE_MINUTES more_settings * 60000000))%Z]>
       (Claim <$> dict_of [("sub", VStr (email login_data))]))
    (SECRET_KEY more_settings) "HS256"
  = inr (access_token resp)
  /\ jwt_encode
       (<["exp" := ClaimDatetime
            (utcnow (sys_emit s SysUtcnow) +
             (if (REFRESH_TOKEN_EXPIRE_DAYS more_settings =? 0)%Z
              then 900000000
              else REFRESH_TOKEN_EXPIRE_DAYS more_settings * microseconds_per_day))%Z]>
          (Claim <$> dict_of [("sub", VStr (email login_data)); ("type", VStr "refresh")]))
       (SECRET_KEY more_settings) "HS256"
     = inr (refresh_token resp)
  /\ token_type resp = "bearer"
  /\ expires_in resp = (ACCESS_TOKEN_EXPIRE_MINUTES more_settings * 60)%Z
  /\ s' = sys_emit (sys_emit s SysUtcnow) SysUtcnow.
Proof.
  unfold login_user, io_try_except, io_bind, io_lift, io_ret, io_raise, of_M.
  destruct (timedelta_of 0 _) as [e | us1] eqn:Hd1; [discriminate | ].
  apply timedelta_of_inr in Hd1.
  rewrite create_access_token_run.
  destruct (datetime_add (utcnow s) _) as [e | t1] eqn:Ht1; [discriminate | ].
  apply datetime_add_inr in Ht1 as [-> _].
  destruct (jwt_encode _ _ _) as [e | acc] eqn:Hacc; [discriminate | ].
  destruct (timedelta_of _ 0) as [e | us2] eqn:Hd2; [discriminate | ].
  apply timedelta_of_inr in Hd2.
  rewrite create_access_token_run.
  destruct (datetime_add (utcnow _) _) as [e | t2] eqn:Ht2; [discriminate | ].
  apply datetime_add_inr in Ht2 as [-> _].
  destruct (jwt_encode _ _ "HS256") as [e | ref] eqn:Href in |- *; [discriminate | ].
  intros [= <- <-]. cbn [access_token refresh_token token_type expires_in].
  assert (Hus1 : us1 = (ACCESS_TOKEN_EXPIRE_MINUTES more_settings * 60000000)%Z) by lia.
  assert (Hus2 : us2 = (REFRESH_TOKEN_EXPIRE_DAYS more_settings * microseconds_per_day)%Z)
    by lia.
  assert (Hz1 : (us1 =? 0)%Z = (ACCESS_TOKEN_EXPIRE_MINUTES more_settings =? 0)%Z).
  { subst us1. destruct (Z.eqb_spec (ACCESS_TOKEN_EXPIRE_MINUTES more_settings) 0);
      [rewrite e; reflexivity | apply Z.eqb_neq; lia]. }
  assert (Hz2 : (us2 =? 0)%Z = (REFRESH_TOKEN_EXPIRE_DAYS more_settings =? 0)%Z).
  { subst us2. unfold microseconds_per_day.
    destruct (Z.eqb_spec (REFRESH_TOKEN_EXPIRE_DAYS more_settings) 0);
      [rewrite e; reflexivity | apply Z.eqb_neq; lia]. }
  rewrite Hz1 in Hacc. rewrite Hz2 in Href. rewrite <- Hus1, <- Hus2.
  change (15 * 60000000)%Z with 900000000%Z in Hacc, Href.
  repeat split; assumption.
Qed.

End LoginRuns.

(** X13.  A successful login reports as [expires_in] the configured
    minutes times sixty, and gives an access token whose subject is the
    e-mail and whose expiry is the clock reading plus the configured
    minutes; when the configured minutes are zero the token nevertheless
    lives fifteen minutes.  The password plays no part. *)
Theorem login_user_reports_configured_lifetime `{rt : Runtime}
    (login_data : LoginRequest) (s : sys) :
  (forall resp s',
      login_user login_data s = (inr resp, s') ->
      expires_in resp = (ACCESS_TOKEN_EXPIRE_MINUTES more_settings * 60)%Z
      /\ token_type resp = "bearer"
      /\ exists claims : gmap string claim,
           jwt_encode claims (SECRET_KEY more_settings) "HS256" = inr (access_token resp)
           /\ claims !! "sub" = Some (Claim (VStr (email login_data)))
           /\ claims !! "exp"
              = Some (ClaimDatetime
                        (utcnow s +
                         (if (ACCESS_TOKEN_EXPIRE_MINUTES more_settings =? 0)%Z
                          then 900000000
                          else ACCESS_TOKEN_EXPIRE_MINUTES more_settings * 60000000))%Z))
  /\ (forall other_password,
      login_user (mkLoginRequest (email login_data) other_password) s
      = login_user login_data s).
Proof.
  split; [ | reflexivity].
  intros resp s' Hrun.
  destruct (login_user_success _ _ _ _ Hrun) as (Hacc & _ & Htype & Hexp & _).
  split; [exact Hexp | ]. split; [exact Htype | ].
  eexists. split; [exact Hacc | ]. split; [ | apply lookup_insert_eq].
  rewrite token_claims_lookup by discriminate. reflexivity.
Qed.

Lemma login_user_reports_configured_lifetime_witness :
  login_user (rt := Machine.healthy)
    (mkLoginRequest "ana@example.com" "correct horse") Machine.boot
  = (inr (mkTokenResponse
            "your-secret-key-change-in-production|HS256|a:ana@example.com"
            "your-secret-key-change-in-production|HS256|r:ana@example.com"
            "bearer" 1800),
     mkSys [] [SysUtcnow; SysUtcnow])
  /\ login_user (rt := Machine.healthy)
       (mkLoginRequest "ana@example.com" "wrong") Machine.boot
     = login_user (rt := Machine.healthy)
         (mkLoginRequest "ana@example.com" "correct horse") Machine.boot
  /\ expires_in
       (mkTokenResponse
          "your-secret-key-change-in-production|HS256|a:ana@example.com"
          "your-secret-key-change-in-production|HS256|r:ana@example.com"
          "bearer" 1800)
     = (30 * 60)%Z.
Proof.
  assert (Hrun :
    login_user (rt := Machine.healthy)
      (mkLoginRequest "ana@example.com" "correct horse") Machine.boot
    = (inr (mkTokenResponse
              "your-secret-key-change-in-production|HS256|a:ana@example.com"
              "your-secret-key-change-in-production|HS256|r:ana@example.com"
              "bearer" 1800),
       mkSys [] [SysUtcnow; SysUtcnow])) by (vm_compute; reflexivity).
  destruct (login_user_reports_configured_lifetime (rt := Machine.healthy)
              (mkLoginRequest "ana@example.com" "correct horse") Machine.boot)
    as [Hok Hpw].
  split; [exact Hrun | ]. split; [exact (Hpw "wrong") | ].
  exact (proj1 (Hok _ _ Hrun)).
Defined.

(** X14.  [get_current_user] returns the claims of a token the library
    accepts; a token the library rejects with a [JWTError] (bad
    signature, expired, bad claims) gives status 401 with the Bearer
    challenge; any other error of the library is passed on.  Nothing is
    logged and the state is left as it was. *)
Theorem get_current_user_outcomes `{rt : Runtime}
    (creds : HTTPAuthorizationCredentials) (s : sys) :
  (forall payload,
      jwt_decode s (credentials creds) (SECRET_KEY more_settings) ["HS256"] = inr payload ->
      get_current_user creds s = (inr payload, s))
  /\ (forall e,
      jwt_decode s (credentials creds) (SECRET_KEY more_settings) ["HS256"] = inl e ->
      is_JWTError e = true ->
      get_current_user creds s
      = (inl (RaisedHTTP (mkHTTPException 401 "Could not validate credentials")
                {["WWW-Authenticate" := "Bearer"]}), s))
  /\ (forall e,
      jwt_decode s (credentials creds) (SECRET_KEY more_settings) ["HS256"] = inl e ->
      is_JWTError e = false ->
      get_current_user creds s = (inl (RaisedOther e), s)).
Proof.
  unfold get_current_user, verify_token.
  repeat split; intros ? Hdec; rewrite Hdec; try reflexivity; intros ->; reflexivity.
Qed.

Lemma get_current_user_outcomes_witness :
  get_current_user (rt := Machine.healthy)
    (mkCredentials "Bearer" "some-other-key|HS256|a:ana@example.com") Machine.boot
  = (inl (RaisedHTTP (mkHTTPException 401 "Could not validate credentials")
            {["WWW-Authenticate" := "Bearer"]}), Machine.boot)
  /\ get_current_user (rt := Machine.healthy)
       (mkCredentials "Bearer" "your-secret-key-change-in-production|HS256|a:ana@example.com")
       Machine.boot
     = (inr (dict_of [("sub", VStr "ana@example.com")]), Machine.boot).
Proof.
  split.
  - destruct (get_current_user_outcomes (rt := Machine.healthy)
                (mkCredentials "Bearer" "some-other-key|HS256|a:ana@example.com")
                Machine.boot) as (_ & Hbad & _).
    apply (Hbad (Exception "JWTError" "Signature verification failed."));
      vm_compute; reflexivity.
  - destruct (get_current_user_outcomes (rt := Machine.healthy)
                (mkCredentials "Bearer"
                   "your-secret-key-change-in-production|HS256|a:ana@example.com")
                Machine.boot) as (Hgood & _).
    apply Hgood. vm_compute. reflexivity.
Defined.

(** ** From login to the protected routes *)

Lemma substring_whole (x : string) : String.substring 0 (String.length x) x = x.
Proof. induction x as [ | a x IH]; cbn; [reflexivity | rewrite IH; reflexivity]. Qed.

Lemma substring_after (p x : string) :
  String.substring (String.length p) (String.length x) (p +:+ x) = x.
Proof.
  induction p as [ | a p IH]; [apply substring_whole | ].
  change (String.substring (String.length p) (String.length x) (p +:+ x) = x).
  exact IH.
Qed.

Lemma prefix_app (p x : string) : String.prefix p (p +:+ x) = true.
Proof.
  induction p as [ | a p IH]; [destruct x; reflexivity | ].
  change ((if ascii_dec a a then String.prefix p (p +:+ x) else false) = true).
  destruct (ascii_dec a a); [exact IH | contradiction].
Qed.

Lemma strip_prefix_app (p x : string) : JsonRef.strip_prefix p (p +:+ x) = Some x.
Proof.
  unfold JsonRef.strip_prefix. rewrite prefix_app, string_length_app.
  replace (String.length p + String.length x - String.length p)
    with (String.length x) by lia.
  rewrite substring_after. reflexivity.
Qed.

Lemma machine_decode_access (s : sys) (key alg sub : string) :
  Machine.decode s ((key +:+ "|" +:+ alg +:+ "|") +:+ "a:" +:+ sub) key [alg]
  = inr (dict_of [("sub", VStr sub)]).
Proof.
  unfold Machine.decode. rewrite strip_prefix_app, (strip_prefix_app "a:" sub).
  reflexivity.
Qed.

Lemma machine_decode_refresh (s : sys) (key alg sub : string) :
  Machine.decode s ((key +:+ "|" +:+ alg +:+ "|") +:+ "r:" +:+ sub) key [alg]
  = inr (dict_of [("sub", VStr sub); ("type", VStr "refresh")]).
Proof.
  unfold Machine.decode. rewrite strip_prefix_app, (strip_prefix_app "r:" sub).
  reflexivity.
Qed.

Lemma machine_accepts_unexpired_tokens
    (disk : sys -> string -> list Byte.byte -> option exn) :
  accepts_unexpired_tokens (rt := Machine.runtime disk).
Proof.
  intros s claims key alg token t sub Henc _ _ Hsub.
  cbn [jwt_encode jwt_decode Machine.runtime] in *.
  unfold Machine.encode in Henc. rewrite Hsub in Henc.
  destruct sub as [ | | | | subject | | ]; try discriminate Henc.
  assert (Hkind : token = (key +:+ "|" +:+ alg +:+ "|") +:+ "a:" +:+ subject
                  \/ token = (key +:+ "|" +:+ alg +:+ "|") +:+ "r:" +:+ subject).
  { destruct (claims !! "type") as [[v | ] | ];
      [destruct v as [ | | | | ty | | ] | | ];
      try (left; injection Henc as <-; reflexivity).
    destruct (String.eqb ty "refresh"); injection Henc as <-; [right | left]; reflexivity. }
  destruct Hkind as [-> | ->];
    [rewrite machine_decode_access | rewrite machine_decode_refresh];
    eexists; split; reflexivity.
Qed.

(** X15.  With a token library that accepts unexpired tokens made with
    the same key and algorithm, the access token of a successful login
    is accepted by [get_current_user] at any moment before the configured
    lifetime has passed, and the claims it returns name the e-mail that
    logged in. *)
Theorem login_token_is_accepted `{rt : Runtime}
    (login_data : LoginRequest) (s s' later : sys) (resp : TokenResponse) :
  accepts_unexpired_tokens ->
  login_user login_data s = (inr resp, s') ->
  (utcnow later
   < utcnow s +
     (if (ACCESS_TOKEN_EXPIRE_MINUTES more_settings =? 0)%Z
      then 900000000
      else ACCESS_TOKEN_EXPIRE_MINUTES more_settings * 60000000))%Z ->
  exists payload,
    get_current_user (mkCredentials "Bearer" (access_token resp)) later
    = (inr payload, later)
    /\ payload !! "sub" = Some (VStr (email login_data)).
Proof.
  intros Hlib Hrun Hfresh.
  destruct (login_user_success _ _ _ _ Hrun) as (Hacc & _).
  destruct (Hlib later _ _ _ _ _ (VStr (email login_data)) Hacc
              (lookup_insert_eq _ _ _) Hfresh) as (payload & Hdec & Hsub).
  { rewrite token_claims_lookup by discriminate. reflexivity. }
  exists payload. split; [ | exact Hsub].
  unfold get_current_user, verify_token. cbn [credentials]. rewrite Hdec. reflexivity.
Qed.

Lemma login_token_is_accepted_witness :
  exists payload,
    get_current_user (rt := Machine.healthy)
      (mkCredentials "Bearer"
         "your-secret-key-change-in-production|HS256|a:ana@example.com")
      (mkSys [] [SysUtcnow; SysUtcnow])
    = (inr payload, mkSys [] [SysUtcnow; SysUtcnow])
    /\ payload !! "sub" = Some (VStr "ana@example.com").
Proof.
  apply (login_token_is_accepted (rt := Machine.healthy)
           (mkLoginRequest "ana@example.com" "correct horse")
           Machine.boot (mkSys [] [SysUtcnow; SysUtcnow]) (mkSys [] [SysUtcnow; SysUtcnow])
           (mkTokenResponse
              "your-secret-key-change-in-production|HS256|a:ana@example.com"
              "your-secret-key-change-in-production|HS256|r:ana@example.com"
              "bearer" 1800)).
  - apply machine_accepts_unexpired_tokens.
  - vm_compute. reflexivity.
  - vm_compute. reflexivity.
Defined.

(** X16.  [get_current_user] does not look at the "type" claim: under the
    same assumption on the library, the refresh token of a successful
    login is accepted as a credential too, for as long as the configured
    refresh lifetime. *)
Theorem refresh_token_is_accepted_as_credential `{rt : Runtime}
    (login_data : LoginRequest) (s s' later : sys) (resp : TokenResponse) :
  accepts_unexpired_tokens ->
  login_user login_data s = (inr resp, s') ->
  (utcnow later
   < utcnow (sys_emit s SysUtcnow) +
     (if (REFRESH_TOKEN_EXPIRE_DAYS more_settings =? 0)%Z
      then 900000000
      else REFRESH_TOKEN_EXPIRE_DAYS more_settings * microseconds_per_day))%Z ->
  exists payload,
    get_current_user (mkCredentials "Bearer" (refresh_token resp)) later
    = (inr payload, later)
    /\ payload !! "sub" = Some (VStr (email login_data)).
Proof.
  intros Hlib Hrun Hfresh.
  destruct (login_user_success _ _ _ _ Hrun) as (_ & Href & _).
  destruct (Hlib later _ _ _ _ _ (VStr (email login_data)) Href
              (lookup_insert_eq _ _ _) Hfresh) as (payload & Hdec & Hsub).
  { rewrite token_claims_lookup by discriminate. reflexivity. }
  exists payload. split; [ | exact Hsub].
  unfold get_current_user, verify_token. cbn [credentials]. rewrite Hdec. reflexivity.
Qed.

Lemma refresh_token_is_accepted_as_credential_witness :
  exists payload,
    get_current_user (rt := Machine.healthy)
      (mkCredentials "Bearer"
         "your-secret-key-change-in-production|HS256|r:ana@example.com")
      (mkSys [] [SysUtcnow; SysUtcnow])
    = (inr payload, mkSys [] [SysUtcnow; SysUtcnow])
    /\ payload !! "sub" = Some (VStr "ana@example.com").
Proof.
  apply (refresh_token_is_accepted_as_credential (rt := Machine.healthy)
           (mkLoginRequest "ana@example.com" "correct horse")
           Machine.boot (mkSys [] [SysUtcnow; SysUtcnow]) (mkSys [] [SysUtcnow; SysUtcnow])
           (mkTokenResponse
              "your-secret-key-change-in-production|HS256|a:ana@example.com"
              "your-secret-key-change-in-production|HS256|r:ana@example.com"
              "bearer" 1800)).
  - apply machine_accepts_unexpired_tokens.
  - vm_compute. reflexivity.
  - vm_compute. reflexivity.
Defined.

(** * Uploads *)

(** X17.  When the file cannot be written, the upload answers with
    status 500 and the detail "Document upload failed": the error's text
    goes to the log, the model is not called, and only the first
    identifier has been drawn. *)
Theorem upload_document_write_failure `{env : Platform} `{rt : Runtime}
    (file : list Byte.byte) (filename document_type : string) (matter_id : option string)
    (s : sys) (e : exn) :
  write_file (sys_emit s SysUuid4)
    (path_join (UPLOAD_DIR more_settings) (uuid4 s +:+ "_" +:+ filename)) file = Some e ->
  upload_document file filename document_type matter_id s
  = (inl (mkHTTPException 500 "Document upload failed"),
     mkSys (trace s ++ [EvLoggerError ("Document upload error: " +:+ str e)])
       (sys_trace s ++ [SysUuid4])).
Proof.
  intros Hwrite.
  unfold upload_document, io_try_except, io_bind, draw_uuid, save.
  rewrite Hwrite. reflexivity.
Qed.

Lemma upload_document_write_failure_witness :
  upload_document (env := Stub.answers_scenario) (rt := Machine.disk_full)
    [Byte.x25; Byte.x50; Byte.x44; Byte.x46] "lease.pdf" "contract" None Machine.boot
  = (inl (mkHTTPException 500 "Document upload failed"),
     mkSys [EvLoggerError "Document upload error: [Errno 28] No space left on device"]
       [SysUuid4]).
Proof.
  apply (upload_document_write_failure (env := Stub.answers_scenario)
           (rt := Machine.disk_full) _ "lease.pdf" "contract" None Machine.boot
           Machine.no_space).
  reflexivity.
Defined.

(** X18.  An upload whose document type is not exactly "contract" makes
    no model call: once the file is written, the answer holds the second
    identifier drawn, the path written, a null analysis and the time, and
    the service's trace is as before. *)
Theorem upload_document_without_analysis `{env : Platform} `{rt : Runtime}
    (file : list Byte.byte) (filename document_type : string) (matter_id : option string)
    (s : sys) :
  document_type <> "contract" ->
  write_file (sys_emit s SysUuid4)
    (path_join (UPLOAD_DIR more_settings) (uuid4 s +:+ "_" +:+ filename)) file = None ->
  upload_document file filename document_type matter_id s
  = (inr (VDict (dict_of
            [ ("document_id",
               VStr (uuid4 (mkSys (trace s)
                              (sys_trace s ++
                               [ SysUuid4
                               ; SysWrite
                                   (path_join (UPLOAD_DIR more_settings)
                                      (uuid4 s +:+ "_" +:+ filename)) file ]))))
            ; ("filename", VStr filename)
            ; ("document_type", VStr document_type)
            ; ("file_path",
               VStr (path_join (UPLOAD_DIR more_settings) (uuid4 s +:+ "_" +:+ filename)))
            ; ("ai_analysis", VNone)
            ; ("uploaded_at",
               VStr (isoformat
                       (utcnow (mkSys (trace s)
                                  (sys_trace s ++
                                   [ SysUuid4
                                   ; SysWrite
                                       (path_join (UPLOAD_DIR more_settings)
                                          (uuid4 s +:+ "_" +:+ filename)) file
                                   ; SysUuid4 ]))))) ])),
     mkSys (trace s)
       (sys_trace s ++
        [ SysUuid4
        ; SysWrite (path_join (UPLOAD_DIR more_settings) (uuid4 s +:+ "_" +:+ filename)) file
        ; SysUuid4
        ; SysUtcnow ])).
Proof.
  intros Htype Hwrite.
  unfold upload_document, io_try_except, io_bind, draw_uuid, save, read_clock, io_ret.
  rewrite Hwrite.
  destruct (String.eqb_spec document_type "contract") as [Heq | _]; [contradiction | ].
  unfold sys_emit. cbn [trace sys_trace]. rewrite <- !app_assoc. reflexivity.
Qed.

Lemma upload_document_without_analysis_witness :
  upload_document (env := Stub.answers_scenario) (rt := Machine.healthy)
    [Byte.x25; Byte.x50; Byte.x44; Byte.x46] "lease.pdf" "Contract" None Machine.boot
  = (inr (VDict (dict_of
            [ ("document_id", VStr "9e8d7c6b-5a49-4382-8716-0f1e2d3c4b5a")
            ; ("filename", VStr "lease.pdf")
            ; ("document_type", VStr "Contract")
            ; ("file_path", VStr "uploads/3f2b8c1e-0d4a-4e6b-9a57-1c2d3e4f5a6b_lease.pdf")
            ; ("ai_analysis", VNone)
            ; ("uploaded_at", VStr "2024-01-01T00:00:01") ])),
     mkSys []
       [ SysUuid4
       ; SysWrite "uploads/3f2b8c1e-0d4a-4e6b-9a57-1c2d3e4f5a6b_lease.pdf"
           [Byte.x25; Byte.x50; Byte.x44; Byte.x46]
       ; SysUuid4
       ; SysUtcnow ]).
Proof.
  rewrite (upload_document_without_analysis (env := Stub.answers_scenario)
             (rt := Machine.healthy) _ "lease.pdf" "Contract" None Machine.boot);
    [vm_compute; reflexivity | discriminate | reflexivity].
Defined.

(** X19.  An upload of type "contract" makes exactly one model call, and
    what it sends for analysis is the fixed text "Sample contract text":
    neither the file's bytes nor its name reach the model.  The upload
    answers normally whatever the model call does; when the call raises
    or its reply does not decode, the analysis in the answer is the
    degraded default. *)
Theorem upload_document_analyzes_sample_text `{env : Platform} `{rt : Runtime}
    (file : list Byte.byte) (filename : string) (matter_id : option string) (s : sys) :
  write_file (sys_emit s SysUuid4)
    (path_join (UPLOAD_DIR more_settings) (uuid4 s +:+ "_" +:+ filename)) file = None ->
  exists (answer : gmap string value) (analysis : value),
    (upload_document file filename "contract" matter_id s).1 = inr (VDict answer)
    /\ (AIService.analyze_contract "Sample contract text" (trace s)).1 = inr analysis
    /\ answer !! "ai_analysis" = Some analysis
    /\ requests_of (trace (upload_document file filename "contract" matter_id s).2)
       = requests_of (trace s)
         ++ [AIService.analyze_contract_request "Sample contract text"]
    /\ (degraded (trace s) (AIService.analyze_contract_request "Sample contract text") ->
        analysis = AIService.analyze_contract_default).
Proof.
  intros Hwrite.
  unfold upload_document, io_try_except, io_bind, draw_uuid, save, read_clock, io_ret, of_M.
  rewrite Hwrite. cbn [String.eqb Ascii.eqb Bool.eqb]. cbn [sys_emit trace sys_trace].
  pose proof (analyze_contract_degraded "Sample contract text" (trace s)) as Hdeg.
  assert (Hreq :
    requests_of (AIService.analyze_contract "Sample contract text" (trace s)).2
    = requests_of (trace s) ++ [AIService.analyze_contract_request "Sample contract text"])
    by read_requests.
  destruct (AIService.analyze_contract "Sample contract text" (trace s))
    as [[e | analysis] w'] eqn:Hrun.
  - exfalso. rewrite analyze_contract_run in Hrun.
    destruct (first_completion _); [discriminate | ].
    destruct (json_loads _); discriminate.
  - cbn in *. eexists. exists analysis. split; [reflexivity | ].
    split; [reflexivity | ]. split; [vm_compute; reflexivity | ].
    split; [exact Hreq | ].
    intros Hd. specialize (Hdeg Hd). injection Hdeg as ->. reflexivity.
Qed.

Lemma upload_document_analyzes_sample_text_witness :
  exists (answer : gmap string value) (analysis : value),
    (upload_document (env := Stub.timing_out) (rt := Machine.healthy)
       [Byte.x25; Byte.x50; Byte.x44; Byte.x46] "lease.pdf" "contract" None
       Machine.boot).1 = inr (VDict answer)
    /\ (AIService.analyze_contract (env := Stub.timing_out) "Sample contract text" []).1
       = inr analysis
    /\ answer !! "ai_analysis" = Some analysis
    /\ requests_of
         (trace (upload_document (env := Stub.timing_out) (rt := Machine.healthy)
                   [Byte.x25; Byte.x50; Byte.x44; Byte.x46] "lease.pdf" "contract" None
                   Machine.boot).2)
       = [AIService.analyze_contract_request (env := Stub.timing_out)
            "Sample contract text"]
    /\ (degraded (env := Stub.timing_out) []
          (AIService.analyze_contract_request (env := Stub.timing_out)
             "Sample contract text") ->
        analysis = AIService.analyze_contract_default).
Proof.
  exact (upload_document_analyzes_sample_text (env := Stub.timing_out)
           (rt := Machine.healthy)
           [Byte.x25; Byte.x50; Byte.x44; Byte.x46] "lease.pdf" None Machine.boot
           eq_refl).
Defined.
